(** * Sensor monitoring scripts: a shallow embedding and its properties

    The development follows [ESD_Essentials_project.py] (the Tkinter
    monitor, also present with Doxygen comments as
    [ESD_Essentials_projec_with_comments.py]) and [Sensor_CSV.py] (the
    console logger).  Readings and clock values are Python floats; they
    are modelled as exact rationals, so the rounding error of the float
    subtraction and multiplication in [read_ultrasonic] is not part of
    the model.  Functions of the Python standard library ([str], [float],
    [int], [datetime.strptime], the [csv] writer and reader) are not
    repository code: the model is parametric in them through the class
    [PyLib]. *)

From Stdlib Require Import ZArith QArith Qround Qabs Lqa String Ascii List Lia Bool DecimalString.
From stdpp Require Import base option list strings gmap.
Import ListNotations.
Open Scope string_scope.
Open Scope list_scope.

(** ** Statements that may raise

    A Python block that mutates its variables and may raise: the state
    reached so far survives the exception, as the lists filled by
    [append] do in [read_csv_data]. *)

Definition Py (S A : Type) : Type := S -> S * option A.

Definition ret {S A} (a : A) : Py S A := fun s => (s, Some a).

Definition raise {S A} : Py S A := fun s => (s, None).

Definition bind {S A B} (m : Py S A) (k : A -> Py S B) : Py S B :=
  fun s => match m s with
           | (s', Some a) => k a s'
           | (s', None) => (s', None)
           end.

Definition modify {S} (f : S -> S) : Py S unit := fun s => (f s, Some tt).

Definition lift {S A} (o : option A) : Py S A :=
  match o with Some a => ret a | None => raise end.

(** [try: body except Exception: handler] *)
Definition try_except {S} (body handler : Py S unit) : Py S unit :=
  fun s => match body s with
           | (s', Some tt) => (s', Some tt)
           | (s', None) => handler s'
           end.

Declare Scope py_scope.
Delimit Scope py_scope with py.
Notation "'let!' x ':=' m 'in' k" := (bind m (fun x => k))
  (at level 10, x name, m at level 100, k at level 200) : py_scope.
Notation "m '>>' k" := (bind m (fun _ => k))
  (at level 90, right associativity) : py_scope.

(** [for x in xs: body x], stopping at the first uncaught exception. *)
Fixpoint for_each {S A} (xs : list A) (body : A -> Py S unit) : Py S unit :=
  match xs with
  | [] => ret tt
  | x :: xs' => (body x >> for_each xs' body)%py
  end.

(** ** The Python library interface *)

Class PyLib := {
  (** [datetime.datetime] *)
  datetime : Type;
  (** [datetime.strptime(s, "%Y-%m-%d %H:%M:%S")]; [None] is [ValueError] *)
  strptime : string -> option datetime;
  (** [float(s)] on a string; [None] is [ValueError] *)
  py_float : string -> option Q;
  (** [int(s)] on a string; [None] is [ValueError] *)
  py_int : string -> option Z;
  (** [str(x)] on a float and on an int, as [csv.writer] applies it *)
  str_float : Q -> string;
  str_int : Z -> string;
  (** the text [csv.writer(file).writerow(fields)] writes *)
  csv_writerow : list string -> string;
  (** the rows [csv.reader(file)] yields for a file with this content *)
  csv_reader : string -> list (list string)
}.

(** ** Readings *)

(** [temp_val] and [level_val]: a float, or the string ["N/A"]. *)
Inductive cell : Type :=
| Num (x : Q)
| NA.

(** [v if v is not None else "N/A"] *)
Definition or_NA (v : option Q) : cell :=
  match v with Some x => Num x | None => NA end.

(** [float(v) if v != "N/A" else None] on a [cell] *)
Definition float_cell (c : cell) : option Q :=
  match c with Num x => Some x | NA => None end.

(** [lo <= x <= hi] *)
Definition between (lo x hi : Q) : bool := Qle_bool lo x && Qle_bool x hi.

(** [x > y] *)
Definition Qgtb (x y : Q) : bool := negb (Qle_bool x y).

(** ** Anomaly detection ([sensor_loop], and the main loop of [Sensor_CSV.py]) *)

Definition anomaly_detection (temp_val level_val : cell) : string :=
  let anomaly := "No" in
  match temp_val, level_val with
  | Num t, Num l =>
      let anomaly := if negb (between 0 t 50) then "Yes" else anomaly in
      let anomaly := if negb (between 0 l 400) then "Yes" else anomaly in
      anomaly
  | _, _ => "Yes"
  end.

(** The commented variant joins the two range tests with [or]. *)
Definition anomaly_detection_commented (temp_val level_val : cell) : string :=
  let anomaly := "No" in
  match temp_val, level_val with
  | Num t, Num l =>
      if negb (between 0 t 50) || negb (between 0 l 400) then "Yes" else anomaly
  | _, _ => "Yes"
  end.

(** ** [read_ultrasonic]

    The function reads the clock once, then polls the echo line; every
    poll of the first loop, and every poll of the second loop that finds
    the line high, is followed by one clock reading.  A [poll] pairs the
    level [GPIO.input(ULTRASONIC_ECHO)] returns with the value of the
    [time.time()] call that comes after it (the poll that ends the second
    loop is followed by none, its [clock] is not used).  [instant] is
    the moment the line was sampled; the function never sees it, only
    statements about the line do.  The trace is finite: [Polling] says
    the loop was still waiting when it ran out. *)

Record poll : Type := { instant : Q; echo : bool; clock : Q }.

Inductive outcome : Type :=
| Polling
| Return (distance : option Q).

(** [round(x, 2)]: nearest multiple of 0.01, ties to the even one. *)
Definition round_half_even (x : Q) : Z :=
  let f := Qfloor x in
  match Qcompare (x - inject_Z f) (1 # 2) with
  | Lt => f
  | Gt => (f + 1)%Z
  | Eq => if Z.even f then f else (f + 1)%Z
  end.

Definition py_round2 (x : Q) : Q := round_half_even (x * 100) # 100.

(** The second loop, [while GPIO.input(ULTRASONIC_ECHO) == 1], and the
    statements after it. *)
Fixpoint wait_low (pulse_start timeout pulse_end : Q) (tr : list poll) : outcome :=
  match tr with
  | [] => Polling
  | p :: tr' =>
      if echo p then
        let pulse_end := clock p in
        if Qgtb pulse_end timeout then Return None
        else wait_low pulse_start timeout pulse_end tr'
      else
        let pulse_duration := (pulse_end - pulse_start)%Q in
        let distance_cm := (pulse_duration * 17150)%Q in
        Return (Some (py_round2 distance_cm))
  end.

(** The first loop, [while GPIO.input(ULTRASONIC_ECHO) == 0], followed by
    [pulse_end = time.time(); timeout = pulse_end + 0.04]. *)
Fixpoint wait_high (timeout pulse_start : Q) (tr : list poll) : outcome :=
  match tr with
  | [] => Polling
  | p :: tr' =>
      if echo p then
        let pulse_end := clock p in
        let timeout := (pulse_end + 0.04)%Q in
        wait_low pulse_start timeout pulse_end tr'
      else
        let pulse_start := clock p in
        if Qgtb pulse_start timeout then Return None
        else wait_high timeout pulse_start tr'
  end.

(** [now] is the value of the first [time.time()] call. *)
Definition read_ultrasonic (now : Q) (tr : list poll) : outcome :=
  let pulse_start := now in
  let timeout := (pulse_start + 0.04)%Q in
  wait_high timeout pulse_start tr.

(** The instants the two loops leave in [pulse_start] and [pulse_end]:
    the clock reading after the last of the given polls, or the reading
    taken before them when there is none. *)
Definition last_clock (before : Q) (polls : list poll) : Q :=
  List.last (map clock polls) before.

(** ** History series *)

Section Model.
Context {L : PyLib}.

(** The four parallel lists, [self.times], [self.temps],
    [self.gas_values] and [self.levels] in [SensorApp], and the four
    locals of the same names in [read_csv_data]. *)
Record Series : Type := {
  times : list datetime;
  temps : list (option Q);
  gas_values : list Z;
  levels : list (option Q)
}.

Definition empty_series : Series :=
  {| times := []; temps := []; gas_values := []; levels := [] |}.

Definition append_times (d : datetime) (s : Series) : Series :=
  {| times := times s ++ [d]; temps := temps s;
     gas_values := gas_values s; levels := levels s |}.

Definition append_temps (t : option Q) (s : Series) : Series :=
  {| times := times s; temps := temps s ++ [t];
     gas_values := gas_values s; levels := levels s |}.

Definition append_gas_values (g : Z) (s : Series) : Series :=
  {| times := times s; temps := temps s;
     gas_values := gas_values s ++ [g]; levels := levels s |}.

Definition append_levels (l : option Q) (s : Series) : Series :=
  {| times := times s; temps := temps s;
     gas_values := gas_values s; levels := levels s ++ [l] |}.

(** ** The log file

    A file is absent or has a content. *)

Definition header : list string := ["Timestamp"; "TEMP"; "PPM"; "LEVEL"; "Anomaly"].

(** [open(filename, mode='w')] then [writerow]; the old content is lost. *)
Definition write_header (f : option string) : option string :=
  Some (csv_writerow header).

(** [open(filename, mode='a')] then [writerow]; the file is created when
    it is absent. *)
Definition append_row (fields : list string) (f : option string) : option string :=
  Some (default "" f +:+ csv_writerow fields).

(** The exceptions the start-up code of the monitor names; [IOError] is
    any [OSError] other than [FileNotFoundError] (permission denied, an
    input/output error). *)
Inductive exn : Type :=
| FileNotFoundError
| IOError.

(** The [try] block of the start-up code of the monitor.  [open] in mode
    ['r'] raises [FileNotFoundError] on an absent file; on a file that
    cannot be read ([read_error]) [open] or [f.read(1)] raises an
    [IOError]; and the block raises [FileNotFoundError] itself when
    [f.read(1)] is empty. *)
Definition probe (read_error : bool) (f : option string) : exn + unit :=
  match f with
  | None => inl FileNotFoundError
  | Some content =>
      if read_error then inl IOError
      else if String.eqb (substring 0 1 content) "" then inl FileNotFoundError
      else inr tt
  end.

(** Start-up code of [ESD_Essentials_project.py]: the clause
    [except (FileNotFoundError, IOError)] opens the file in mode ['w']
    after either exception.  Writing is taken to succeed, as everywhere
    in the model. *)
Definition ensure_initialized (read_error : bool) (f : option string) : option string :=
  match probe read_error f with
  | inr tt => f
  | inl FileNotFoundError => write_header f
  | inl IOError => write_header f
  end.

(** Start-up code of [Sensor_CSV.py]: the file is opened in mode ['a'],
    and [file.tell()] is its size. *)
Definition ensure_initialized_headless (f : option string) : option string :=
  let content := default "" f in
  if (String.length content =? 0)%nat
  then Some (content +:+ csv_writerow header)
  else Some content.

(** ** [csv.DictReader]

    The first row gives the field names; empty rows are skipped; a short
    row is padded with [None], and the fields beyond the last name (kept
    by Python under the key [None]) are left out, since the scripts only
    use string keys. *)

Definition dict_row (fieldnames row : list string) : gmap string (option string) :=
  let values := map Some row ++ replicate (length fieldnames - length row) None in
  foldl (fun d kv => <[kv.1 := kv.2]> d) ∅ (zip fieldnames values).

Definition DictReader (rows : list (list string)) : list (gmap string (option string)) :=
  match rows with
  | [] => []
  | fieldnames :: rest => map (dict_row fieldnames) (filter (fun r => r ≠ []) rest)
  end.

(** [row[key]]: [KeyError] when the key is missing. *)
Definition getitem {S} (row : gmap string (option string)) (key : string) : Py S (option string) :=
  lift (row !! key).

(** A library parser applied to a field; [TypeError] on [None]. *)
Definition parse {S A} (f : string -> option A) (v : option string) : Py S A :=
  lift (v ≫= f).

(** ** [read_csv_data] *)

(** The body of the inner [try]. *)
Definition read_row (row : gmap string (option string)) : Py Series unit :=
  (let! ts := getitem row "Timestamp" in
   let! d := parse strptime ts in
   modify (append_times d) >>
   let! temp := getitem row "TEMP" in
   let! t := (if decide (temp = Some "N/A") then ret None
              else let! x := parse py_float temp in ret (Some x)) in
   modify (append_temps t) >>
   let! ppm := getitem row "PPM" in
   let! g := parse py_int ppm in
   modify (append_gas_values g) >>
   let! lev := getitem row "LEVEL" in
   let! l := (if decide (lev = Some "N/A") then ret None
              else let! x := parse py_float lev in ret (Some x)) in
   modify (append_levels l))%py.

Definition read_csv_data (f : option string) : Series :=
  match f with
  | None => empty_series
  | Some content =>
      fst (for_each (DictReader (csv_reader content))
             (fun row => try_except (read_row row) (ret tt))
             empty_series)
  end.

(** ** [SensorApp.sensor_loop] *)

(** What one iteration reads from its environment: the formatted
    [datetime.now()], the temperature of [Adafruit_DHT.read], the level
    of the gas pin and the result of [read_ultrasonic()]. *)
Record Round : Type := {
  timestamp : string;
  temperature : option Q;
  gas_state : Z;
  level : option Q
}.

Record App : Type := {
  temp_threshold : Q;
  gas_threshold : Z;
  log : option string;
  series : Series
}.

Definition set_log (f : option string -> option string) (a : App) : App :=
  {| temp_threshold := temp_threshold a; gas_threshold := gas_threshold a;
     log := f (log a); series := series a |}.

Definition set_series (f : Series -> Series) (a : App) : App :=
  {| temp_threshold := temp_threshold a; gas_threshold := gas_threshold a;
     log := log a; series := f (series a) |}.

(** [SensorApp.__init__], as far as the loop is concerned. *)
Definition init_app (f : option string) : App :=
  {| temp_threshold := 50; gas_threshold := 1; log := f; series := empty_series |}.

Definition ppm_of (gas_state : Z) : Z :=
  let gas_detected := (gas_state =? 0)%Z in
  if gas_detected then 1%Z else 0%Z.

(** [str] as [csv.writer] applies it to a [cell]. *)
Definition str_cell (c : cell) : string :=
  match c with Num x => str_float x | NA => "N/A" end.

(** The list given to [writerow]. *)
Definition log_row (r : Round) : list string :=
  let temp_val := or_NA (temperature r) in
  let ppm_val := ppm_of (gas_state r) in
  let level_val := or_NA (level r) in
  let anomaly := anomaly_detection temp_val level_val in
  [timestamp r; str_cell temp_val; str_int ppm_val; str_cell level_val; anomaly].

(** [l[-n:]] *)
Definition last_n {A} (n : nat) (l : list A) : list A := drop (length l - n) l.

Definition max_len : nat := 100.

(** [if len(self.times) > max_len: ...] *)
Definition maintain (s : Series) : Series :=
  if (max_len <? length (times s))%nat then
    {| times := last_n max_len (times s);
       temps := last_n max_len (temps s);
       gas_values := last_n max_len (gas_values s);
       levels := last_n max_len (levels s) |}
  else s.

(** One iteration of the [while True] loop. *)
Definition sensor_iter (r : Round) : Py App unit :=
  let temp_val := or_NA (temperature r) in
  let ppm_val := ppm_of (gas_state r) in
  let level_val := or_NA (level r) in
  (modify (set_log (append_row (log_row r))) >>
   let! dt := lift (strptime (timestamp r)) in
   modify (set_series (append_times dt)) >>
   modify (set_series (append_temps (float_cell temp_val))) >>
   modify (set_series (append_gas_values ppm_val)) >>
   modify (set_series (append_levels (float_cell level_val))) >>
   modify (set_series maintain))%py.

(** The loop over the rounds the environment supplies. *)
Definition sensor_loop (rounds : list Round) : Py App unit :=
  for_each rounds sensor_iter.

(** One iteration of the main loop of [Sensor_CSV.py], which only logs. *)
Definition headless_iter (r : Round) (f : option string) : option string :=
  append_row (log_row r) f.

End Model.

(** ** A small executable instance of the library interface

    Plain decimal numbers, the fixed timestamp format and CSV rows whose
    fields need no quoting: enough to run the model on concrete logs. *)

Module RefLib.

Definition CR : ascii := "013"%char.
Definition LF : ascii := "010"%char.

Fixpoint split_on (c : ascii) (s : string) : list string :=
  match s with
  | EmptyString => [EmptyString]
  | String a s' =>
      if Ascii.eqb a c then EmptyString :: split_on c s'
      else match split_on c s' with
           | w :: ws => String a w :: ws
           | [] => [String a EmptyString]
           end
  end.

Fixpoint strip (c : ascii) (s : string) : string :=
  match s with
  | EmptyString => EmptyString
  | String a s' => if Ascii.eqb a c then strip c s' else String a (strip c s')
  end.

Definition nat_of_digits (s : string) : option nat :=
  match s with
  | EmptyString => None
  | _ => Nat.of_uint <$> NilEmpty.uint_of_string s
  end.

Definition digits_of_N (n : N) : string := NilEmpty.string_of_uint (N.to_uint n).

(** An optional minus sign in front of [body]. *)
Definition signed {A} (opp : A -> A) (body : string -> option A) (s : string) : option A :=
  match s with
  | String "-" s' => opp <$> body s'
  | _ => body s
  end.

Record stamp : Type := {
  year : nat; month : nat; day : nat;
  hour : nat; minute : nat; second : nat
}.

Definition ref_strptime (s : string) : option stamp :=
  match split_on " " s with
  | [d; t] =>
      match split_on "-" d, split_on ":" t with
      | [y; m; dd], [h; mi; se] =>
          y ← nat_of_digits y; m ← nat_of_digits m; dd ← nat_of_digits dd;
          h ← nat_of_digits h; mi ← nat_of_digits mi; se ← nat_of_digits se;
          if ((1 <=? m) && (m <=? 12) && (1 <=? dd) && (dd <=? 31)
              && (h <? 24) && (mi <? 60) && (se <? 62))%nat
          then Some {| year := y; month := m; day := dd;
                       hour := h; minute := mi; second := se |}
          else None
      | _, _ => None
      end
  | _ => None
  end.

Definition ref_int : string -> option Z :=
  signed Z.opp (fun s => Z.of_nat <$> nat_of_digits s).

Definition ref_str_int (z : Z) : string := NilZero.string_of_int (Z.to_int z).

Definition ref_float : string -> option Q :=
  signed Qopp (fun s =>
    match split_on "." s with
    | [i] => n ← nat_of_digits i; Some (inject_Z (Z.of_nat n))
    | [i; f] =>
        _ ← nat_of_digits i;
        n ← nat_of_digits (i +:+ f);
        Some (Qred (Z.of_nat n # Pos.pow 10 (Pos.of_nat (String.length f))))
    | _ => None
    end).

(** The number of decimals, between 1 and 6, that [q] needs. *)
Definition decimals (q : Q) : nat :=
  default 6%nat
    (head (filter (fun k => (10 ^ Z.of_nat k mod Zpos (Qden q) = 0)%Z) (seq 1 6))).

Definition ref_str_float (q : Q) : string :=
  let k := decimals q in
  let scaled := Z.abs (Qfloor (q * inject_Z (10 ^ Z.of_nat k))) in
  let digits := digits_of_N (Z.to_N scaled) in
  let digits := String.concat "" (replicate (S k - String.length digits) "0") +:+ digits in
  let n := (String.length digits - k)%nat in
  (if Qle_bool 0 q then "" else "-")
    +:+ substring 0 n digits +:+ "." +:+ substring n k digits.

Definition ref_writerow (fields : list string) : string :=
  String.concat "," fields +:+ String CR (String LF EmptyString).

Definition ref_reader (content : string) : list (list string) :=
  let lines := split_on LF (strip CR content) in
  let lines := match reverse lines with
               | EmptyString :: r => reverse r
               | _ => lines
               end in
  map (fun l => if String.eqb l "" then [] else split_on "," l) lines.

Definition ref_lib : PyLib :=
  {| datetime := stamp;
     strptime := ref_strptime;
     py_float := ref_float;
     py_int := ref_int;
     str_float := ref_str_float;
     str_int := ref_str_int;
     csv_writerow := ref_writerow;
     csv_reader := ref_reader |}.

End RefLib.


(** ** Published samples

    Vocabulary for the history lists and for the inputs the properties
    are run on. *)

Section Histories.
Context {L : PyLib}.

(** The parsed timestamps of the rounds, when all of them parse. *)
Definition stamps (rounds : list Round) : option (list datetime) :=
  mapM (fun r => strptime (timestamp r)) rounds.

(** The four lists that hold one entry per round, in order. *)
Definition published (rounds : list Round) (ds : list datetime) : Series :=
  {| times := ds;
     temps := map temperature rounds;
     gas_values := map (fun r => ppm_of (gas_state r)) rounds;
     levels := map level rounds |}.

(** The last [n] entries of each list. *)
Definition recent (n : nat) (s : Series) : Series :=
  {| times := last_n n (times s);
     temps := last_n n (temps s);
     gas_values := last_n n (gas_values s);
     levels := last_n n (levels s) |}.

(** One more entry at the end of each list. *)
Definition with_sample (d : datetime) (t : option Q) (g : Z) (l : option Q)
    (s : Series) : Series :=
  {| times := times s ++ [d];
     temps := temps s ++ [t];
     gas_values := gas_values s ++ [g];
     levels := levels s ++ [l] |}.

(** A field written from a reading reads back as that reading: [float]
    inverts [str] on it, and [str] does not produce the sentinel. *)
Definition reads_back (v : option Q) : Prop :=
  forall x, v = Some x -> py_float (str_float x) = Some x /\ str_float x <> "N/A".

(** The fields of a round read back as they were written. *)
Definition readable (r : Round) : Prop :=
  reads_back (temperature r) /\ reads_back (level r)
  /\ py_int (str_int (ppm_of (gas_state r))) = Some (ppm_of (gas_state r)).

(** No list is longer than the one filled before it. *)
Definition staggered (s : Series) : Prop :=
  length (levels s) <= length (gas_values s)
  /\ length (gas_values s) <= length (temps s)
  /\ length (temps s) <= length (times s).

End Histories.

(** Rounds and logs for the reference library. *)

Definition faulty_round : Round :=
  {| timestamp := "2025-01-01 12:00:01"; temperature := None;
     gas_state := 0; level := None |}.

Definition normal_round : Round :=
  {| timestamp := "2025-01-01 12:00:00"; temperature := Some (47 # 2);
     gas_state := 1; level := Some (6017 # 50) |}.

Definition gassy_round : Round :=
  {| timestamp := "2025-01-01 12:00:02"; temperature := Some (47 # 2);
     gas_state := 0; level := Some (6017 # 50) |}.

(** 101 rounds, one more than the history keeps. *)
Definition burst : list Round :=
  map (fun i => {| timestamp := "2025-01-01 12:00:00";
                   temperature := Some (inject_Z (Z.of_nat i));
                   gas_state := Z.of_nat (i mod 2);
                   level := Some (6017 # 50) |})
      (seq 0 101).

Definition fresh_log : string := RefLib.ref_writerow header.

(** A log whose only row has a timestamp that parses and a temperature
    that does not. *)
Definition damaged_log : string :=
  RefLib.ref_writerow header
  +:+ RefLib.ref_writerow ["2025-01-01 12:00:00"; "abc"; "0"; "120.34"; "No"].

(** ** Echo traces

    What the specification of the distance probe says about a trace, and
    what the two loops of [read_ultrasonic] test. *)

(** Time goes forward: each poll samples the line after the clock
    reading before it, and is followed by a later reading. *)
Fixpoint well_timed (now : Q) (tr : list poll) : Prop :=
  match tr with
  | [] => True
  | p :: tr' =>
      (now <= instant p)%Q /\ (instant p <= clock p)%Q /\ well_timed (clock p) tr'
  end.

(** The echo line is low whenever it is sampled within 40 ms of the
    first poll: it does not go high within the time allowed. *)
Definition low_within_deadline (tr : list poll) : Prop :=
  match tr with
  | [] => True
  | first :: _ =>
      Forall (fun p => (instant p <= instant first + 0.04)%Q -> echo p = false) tr
  end.

Definition low (p : poll) : Prop := echo p = false.
Definition high (p : poll) : Prop := echo p = true.

(** A poll still finds the line low after the first deadline, or still
    finds it high after the second one. *)
Inductive timed_out (now : Q) : list poll -> Prop :=
| no_rising_edge (lows : list poll) (p : poll) (rest : list poll) :
    Forall low lows -> low p -> (now + 0.04 < clock p)%Q ->
    timed_out now (lows ++ p :: rest)
| no_falling_edge (lows : list poll) (h : poll) (highs : list poll)
                  (p : poll) (rest : list poll) :
    Forall low lows -> high h -> Forall high highs -> high p ->
    (clock h + 0.04 < clock p)%Q ->
    timed_out now (lows ++ h :: highs ++ p :: rest).

(** The loop is held up for 20 ms between two polls: the line is low
    when sampled at 0.1 ms and at 29.9 ms, and high when sampled next, at
    49.9 ms; it is low again 10 ms later. *)
Definition late_echo : list poll :=
  [ {| instant := 0.0001; echo := false; clock := 0.0002 |};
    {| instant := 0.0299; echo := false; clock := 0.03 |};
    {| instant := 0.0499; echo := true; clock := 0.05 |};
    {| instant := 0.0599; echo := false; clock := 0.06 |} ].

(** The line never rises while the clock passes the first deadline. *)
Definition silent_echo : list poll :=
  [ {| instant := 0.0099; echo := false; clock := 0.01 |};
    {| instant := 0.0409; echo := false; clock := 0.041 |} ].

(** An echo pulse of about 5.8 ms, one metre. *)
Definition metre_echo : list poll :=
  [ {| instant := 0.10005; echo := false; clock := 0.1001 |};
    {| instant := 0.10015; echo := false; clock := 0.1002 |};
    {| instant := 0.10025; echo := true; clock := 0.1003 |};
    {| instant := 0.10295; echo := true; clock := 0.1030 |};
    {| instant := 0.10595; echo := true; clock := 0.1060 |};
    {| instant := 0.10605; echo := false; clock := 0.1061 |} ].

(** The timestamp of the sample rounds, parsed by the reference library. *)
Definition noon : RefLib.stamp :=
  {| RefLib.year := 2025; RefLib.month := 1; RefLib.day := 1;
     RefLib.hour := 12; RefLib.minute := 0; RefLib.second := 0 |}.

(** An application whose sliders were moved. *)
Definition tuned_app : App (L := RefLib.ref_lib) :=
  {| temp_threshold := 20; gas_threshold := 0;
     log := Some fresh_log; series := empty_series |}.

(** Further rounds and logs for the reference library. *)

Definition cold_round : Round :=
  {| timestamp := "2025-01-01 12:00:03"; temperature := Some (-5 # 1);
     gas_state := 1; level := Some (6017 # 50) |}.

Definition three_rounds : list Round := [normal_round; faulty_round; gassy_round].

(** A file that is not a log of the scripts. *)
Definition foreign_log : string :=
  RefLib.ref_writerow ["time"; "value"]
  +:+ RefLib.ref_writerow ["2025-01-01 12:00:00"; "1"].

(** Two logs that differ in the [Anomaly] field of their row. *)
Definition log_flagged_no : string :=
  fresh_log +:+ RefLib.ref_writerow ["2025-01-01 12:00:00"; "23.5"; "0"; "120.34"; "No"].

Definition log_flagged_yes : string :=
  fresh_log +:+ RefLib.ref_writerow ["2025-01-01 12:00:00"; "23.5"; "0"; "120.34"; "Yes"].

(** A log whose last row stops after the temperature. *)
Definition truncated_log : string :=
  fresh_log +:+ RefLib.ref_writerow ["2025-01-01 12:00:00"; "23.5"].

(** ** The fault banner ([SensorApp.update_plots])

    The part of [update_plots] that sets the status label; the drawing
    calls before it do not change the state of the application. *)

(** [x < y] *)
Definition Qltb (x y : Q) : bool := negb (Qle_bool y x).

(** The block under [if self.temps and self.gas_values and self.levels],
    on the last entries of the three lists. *)
Definition latest_fault (temp_threshold : Q) (gas_threshold : Z)
    (last_temp : option Q) (last_gas : Z) (last_level : option Q) : string :=
  let fault_msg := "" in
  match last_temp, last_level with
  | Some t, Some l =>
      let fault_msg :=
        if Qgtb t temp_threshold || (last_gas >? gas_threshold)%Z
        then "Critical fault detected!" else fault_msg in
      let fault_msg :=
        if Qltb l 0 || Qgtb l 400
        then "Critical fault detected!" else fault_msg in
      fault_msg
  | _, _ => "Critical fault: Sensor data missing!"
  end.

(** The commented variant tests everything in one [elif]. *)
Definition latest_fault_commented (temp_threshold : Q) (gas_threshold : Z)
    (last_temp : option Q) (last_gas : Z) (last_level : option Q) : string :=
  let fault_msg := "" in
  match last_temp, last_level with
  | Some t, Some l =>
      if Qgtb t temp_threshold || (last_gas >? gas_threshold)%Z
         || negb (between 0 l 400)
      then "Critical fault detected!" else fault_msg
  | _, _ => "Critical fault: Sensor data missing!"
  end.

Section Banner.
Context {L : PyLib}.

(** [fault_msg] at the end of [update_plots]; [xs[-1]] is the last entry
    of a list that the [if] found non-empty. *)
Definition fault_detection (a : App) : string :=
  let fault_msg := "" in
  match list.last (temps (series a)), list.last (gas_values (series a)),
        list.last (levels (series a)) with
  | Some last_temp, Some last_gas, Some last_level =>
      latest_fault (temp_threshold a) (gas_threshold a) last_temp last_gas last_level
  | _, _, _ => fault_msg
  end.

(** ** The main loop of [Sensor_CSV.py] *)

Definition headless_loop (rounds : list Round) (f : option string) : option string :=
  foldl (fun f r => headless_iter r f) f rounds.

(** The text of the rows of the rounds, as the writer lays them out. *)
Definition rows_text (rounds : list Round) : string :=
  foldr (fun r text => csv_writerow (log_row r) +:+ text) "" rounds.

End Banner.

(** ** The echo pulse

    What the line does, as opposed to what the polls report: it is high
    from [rise] until [fall]. *)







Definition rounded_echo : list poll :=
  [ {| instant := 0.10005; echo := false; clock := 0.1001 |};
    {| instant := 0.10015; echo := false; clock := 0.1002 |};
    {| instant := 0.10025; echo := true; clock := 0.1003 |};
    {| instant := 0.10295; echo := true; clock := 0.1030 |};
    {| instant := 0.10598; echo := true; clock := 0.10603 |};
    {| instant := 0.10605; echo := false; clock := 0.1061 |} ].

(** ** The methods of the commented file

    [ESD_Essentials_projec_with_comments.py] writes the range test of
    [sensor_loop] and the fault test of [update_plots] differently; the
    other statements of the two methods are those of the original. *)

Section Commented.
Context {L : PyLib}.

Definition log_row_commented (r : Round) : list string :=
  let temp_val := or_NA (temperature r) in
  let ppm_val := ppm_of (gas_state r) in
  let level_val := or_NA (level r) in
  let anomaly := anomaly_detection_commented temp_val level_val in
  [timestamp r; str_cell temp_val; str_int ppm_val; str_cell level_val; anomaly].

Definition sensor_iter_commented (r : Round) : Py App unit :=
  let temp_val := or_NA (temperature r) in
  let ppm_val := ppm_of (gas_state r) in
  let level_val := or_NA (level r) in
  (modify (set_log (append_row (log_row_commented r))) >>
   let! dt := lift (strptime (timestamp r)) in
   modify (set_series (append_times dt)) >>
   modify (set_series (append_temps (float_cell temp_val))) >>
   modify (set_series (append_gas_values ppm_val)) >>
   modify (set_series (append_levels (float_cell level_val))) >>
   modify (set_series maintain))%py.

Definition sensor_loop_commented (rounds : list Round) : Py App unit :=
  for_each rounds sensor_iter_commented.

Definition fault_detection_commented (a : App) : string :=
  let fault_msg := "" in
  match list.last (temps (series a)), list.last (gas_values (series a)),
        list.last (levels (series a)) with
  | Some last_temp, Some last_gas, Some last_level =>
      latest_fault_commented (temp_threshold a) (gas_threshold a)
        last_temp last_gas last_level
  | _, _, _ => fault_msg
  end.

End Commented.

(** * Properties *)

(** ** Anomaly detection *)

Lemma between_spec (lo x hi : Q) :
  between lo x hi = true <-> (lo <= x <= hi)%Q.
Proof.
  unfold between. rewrite andb_true_iff, !Qle_bool_iff. reflexivity.
Qed.

Lemma between_false (lo x hi : Q) :
  between lo x hi = false <-> (x < lo \/ hi < x)%Q.
Proof.
  unfold between. rewrite andb_false_iff. split.
  - intros [H | H]; [left | right]; apply Qnot_le_lt; intros Hle;
      apply Qle_bool_iff in Hle; congruence.
  - intros [H | H]; [left | right]; apply not_true_is_false; intros Hle;
      apply Qle_bool_iff in Hle; exact (Qlt_not_le _ _ H Hle).
Qed.

Lemma anomaly_detection_cases (t l : Q) :
  anomaly_detection (Num t) (Num l)
  = if between 0 t 50 && between 0 l 400 then "No" else "Yes".
Proof.
  unfold anomaly_detection.
  destruct (between 0 t 50), (between 0 l 400); reflexivity.
Qed.

(** The two spellings of the range test agree. *)
Lemma anomaly_detection_commented_eq (temp_val level_val : cell) :
  anomaly_detection_commented temp_val level_val
  = anomaly_detection temp_val level_val.
Proof.
  destruct temp_val as [t|], level_val as [l|]; try reflexivity.
  unfold anomaly_detection_commented, anomaly_detection.
  destruct (between 0 t 50), (between 0 l 400); reflexivity.
Qed.

Lemma anomaly_detection_absent (temp_val level_val : cell) :
  temp_val = NA \/ level_val = NA ->
  anomaly_detection temp_val level_val = "Yes".
Proof.
  intros [-> | ->]; [| destruct temp_val]; reflexivity.
Qed.

Section Logging.
Context {L : PyLib}.

(** Whatever [strptime] does later in the iteration, the row has been
    appended to the log. *)
Lemma sensor_iter_log (r : Round) (a : App) :
  log (sensor_iter r a).1 = append_row (log_row r) (log a).
Proof.
  unfold sensor_iter, bind, modify, lift, ret, raise. simpl.
  destruct (strptime (timestamp r)); reflexivity.
Qed.

(** C1. A round whose temperature or distance reading is absent is
    classified anomalous: both loops write a row whose [Anomaly] field is
    ["Yes"]. *)
Theorem absent_reading_logged_anomalous (r : Round) (a : App) (f : option string) :
  temperature r = None \/ level r = None ->
  let row := [timestamp r; str_cell (or_NA (temperature r));
              str_int (ppm_of (gas_state r)); str_cell (or_NA (level r)); "Yes"] in
  anomaly_detection (or_NA (temperature r)) (or_NA (level r)) = "Yes"
  /\ log (sensor_iter r a).1 = append_row row (log a)
  /\ headless_iter r f = append_row row f.
Proof.
  intros Habsent row.
  assert (Hyes : anomaly_detection (or_NA (temperature r)) (or_NA (level r)) = "Yes").
  { apply anomaly_detection_absent.
    destruct Habsent as [-> | ->]; [left | right]; reflexivity. }
  assert (Hrow : log_row r = row).
  { unfold log_row, row. rewrite Hyes. reflexivity. }
  split; [exact Hyes |].
  split; [rewrite sensor_iter_log | unfold headless_iter]; rewrite Hrow; reflexivity.
Qed.

(** C3. The gas reading and the thresholds play no part in the verdict:
    two iterations on rounds with the same temperature and distance, from
    any two states of the application, log the same [Anomaly] field. *)
Theorem anomaly_flag_ignores_gas (r1 r2 : Round) (a1 a2 : App) :
  temperature r1 = temperature r2 ->
  level r1 = level r2 ->
  exists verdict : string,
    log (sensor_iter r1 a1).1
    = append_row [timestamp r1; str_cell (or_NA (temperature r1));
                  str_int (ppm_of (gas_state r1)); str_cell (or_NA (level r1));
                  verdict] (log a1)
    /\ log (sensor_iter r2 a2).1
       = append_row [timestamp r2; str_cell (or_NA (temperature r2));
                     str_int (ppm_of (gas_state r2)); str_cell (or_NA (level r2));
                     verdict] (log a2)
    /\ headless_iter r1 (log a1)
       = append_row [timestamp r1; str_cell (or_NA (temperature r1));
                     str_int (ppm_of (gas_state r1)); str_cell (or_NA (level r1));
                     verdict] (log a1)
    /\ headless_iter r2 (log a2)
       = append_row [timestamp r2; str_cell (or_NA (temperature r2));
                     str_int (ppm_of (gas_state r2)); str_cell (or_NA (level r2));
                     verdict] (log a2).
Proof.
  intros Ht Hl.
  exists (anomaly_detection (or_NA (temperature r1)) (or_NA (level r1))).
  rewrite !sensor_iter_log. unfold headless_iter, log_row.
  rewrite <- Ht, <- Hl. repeat split; reflexivity.
Qed.

End Logging.

(** C2. With both readings present the verdict is ["No"] exactly when the
    temperature lies in [0, 50] and the distance in [0, 400], bounds
    included, and ["Yes"] exactly when one of them lies strictly
    outside. *)
Theorem in_range_iff_not_anomalous (t l : Q) :
  (anomaly_detection (Num t) (Num l) = "No"
   <-> (0 <= t <= 50)%Q /\ (0 <= l <= 400)%Q)
  /\ (anomaly_detection (Num t) (Num l) = "Yes"
      <-> (t < 0 \/ 50 < t)%Q \/ (l < 0 \/ 400 < l)%Q).
Proof.
  rewrite anomaly_detection_cases.
  destruct (between 0 t 50) eqn:Ht, (between 0 l 400) eqn:Hl; simpl;
    try apply between_spec in Ht; try apply between_spec in Hl;
    try apply between_false in Ht; try apply between_false in Hl.
  - split; split; try done.
    intros [[H | H] | [H | H]]; exfalso.
    + exact (Qlt_not_le _ _ H (proj1 Ht)).
    + exact (Qlt_not_le _ _ H (proj2 Ht)).
    + exact (Qlt_not_le _ _ H (proj1 Hl)).
    + exact (Qlt_not_le _ _ H (proj2 Hl)).
  - split; split; try done; [| by right].
    intros [_ Hin]. exfalso. destruct Hl as [H | H].
    + exact (Qlt_not_le _ _ H (proj1 Hin)).
    + exact (Qlt_not_le _ _ H (proj2 Hin)).
  - split; split; try done; [| by left].
    intros [Hin _]. exfalso. destruct Ht as [H | H].
    + exact (Qlt_not_le _ _ H (proj1 Hin)).
    + exact (Qlt_not_le _ _ H (proj2 Hin)).
  - split; split; try done; [| by left].
    intros [Hin _]. exfalso. destruct Ht as [H | H].
    + exact (Qlt_not_le _ _ H (proj1 Hin)).
    + exact (Qlt_not_le _ _ H (proj2 Hin)).
Qed.

(** The bounds themselves, and the first hundredth beyond the upper ones. *)
Example boundary_readings :
  anomaly_detection (Num 0) (Num 0) = "No"
  /\ anomaly_detection (Num 50) (Num 400) = "No"
  /\ anomaly_detection (Num 50.01) (Num 400) = "Yes"
  /\ anomaly_detection (Num 50) (Num 400.01) = "Yes".
Proof. repeat split; reflexivity. Qed.

(** ** Log initialisation *)

Section Initialisation.
Context {L : PyLib}.

Lemma probe_nonempty (content : string) :
  content <> "" -> probe false (Some content) = inr tt.
Proof.
  intros Hne. destruct content as [| c rest]; [congruence |]. reflexivity.
Qed.

Lemma probe_fails (read_error : bool) (f : option string) (e : exn) :
  probe read_error f = inl e -> f = None \/ f = Some "" \/ read_error = true.
Proof.
  destruct f as [[| c rest] |], read_error; simpl; auto.
  destruct rest; discriminate.
Qed.

(** The header goes to a file that is absent, empty or unreadable, and
    replaces nothing else. *)
Lemma ensure_initialized_writes (read_error : bool) (f : option string) :
  ensure_initialized read_error f <> f ->
  f = None \/ f = Some "" \/ read_error = true.
Proof.
  unfold ensure_initialized.
  destruct (probe read_error f) as [e | []] eqn:Hp; [| congruence].
  intros _. by apply (probe_fails read_error f e).
Qed.

Lemma ensure_initialized_fresh (read_error : bool) :
  ensure_initialized read_error None = Some (csv_writerow header)
  /\ ensure_initialized read_error (Some "") = Some (csv_writerow header)
  /\ ensure_initialized_headless None = Some (csv_writerow header)
  /\ ensure_initialized_headless (Some "") = Some (csv_writerow header).
Proof. destruct read_error; repeat split; reflexivity. Qed.

(** On a log that holds at least one byte and can be read, the start-up
    code of either script changes nothing, so running it again changes
    nothing either: the header is not written a second time.  The
    console logger needs no reading: it leaves every such log alone. *)
Theorem ensure_initialized_idempotent (content : string) :
  content <> "" ->
  ensure_initialized false (Some content) = Some content
  /\ ensure_initialized_headless (Some content) = Some content
  /\ ensure_initialized false (ensure_initialized false (Some content)) = Some content
  /\ ensure_initialized_headless (ensure_initialized_headless (Some content))
     = Some content.
Proof.
  intros Hne.
  assert (H1 : ensure_initialized false (Some content) = Some content).
  { unfold ensure_initialized. by rewrite probe_nonempty. }
  assert (H2 : ensure_initialized_headless (Some content) = Some content).
  { unfold ensure_initialized_headless. simpl.
    destruct content; [congruence | reflexivity]. }
  rewrite !H1, !H2. done.
Qed.

(** C5, on the code.  A log that holds at least one byte is not always
    left unchanged by the monitor: when reading it raises an [IOError],
    the [except] clause catches the error and the file is opened in mode
    ['w'], so its content is replaced by the header line.  The console
    logger leaves the same log as it is. *)
Theorem ensure_initialized_rewrites_unreadable (content : string) :
  content <> "" ->
  ensure_initialized true (Some content) = Some (csv_writerow header)
  /\ ensure_initialized_headless (Some content) = Some content.
Proof.
  intros Hne. split; [reflexivity |].
  unfold ensure_initialized_headless. simpl.
  destruct content; [congruence | reflexivity].
Qed.

(** A log created by the start-up code is left as it is by a second run
    that meets the same file system, as soon as the header line the
    writer produces is not empty: the second run finds a byte and writes
    nothing, or cannot read the file and writes the header again. *)
Lemma ensure_initialized_twice (read_error : bool) (f : option string) :
  csv_writerow header <> "" ->
  ensure_initialized read_error (ensure_initialized read_error f)
  = ensure_initialized read_error f.
Proof.
  intros Hne.
  assert (Hcases : ensure_initialized read_error f = f
                   /\ probe read_error f = inr tt
                   \/ ensure_initialized read_error f = Some (csv_writerow header)).
  { unfold ensure_initialized.
    destruct (probe read_error f) as [[|] | []]; [by right | by right | by left]. }
  destruct Hcases as [[Hf Hp] | Hf]; rewrite !Hf.
  - reflexivity.
  - destruct read_error; [reflexivity |].
    unfold ensure_initialized. by rewrite probe_nonempty.
Qed.

End Initialisation.

(** ** The distance probe *)

Lemma Qgtb_spec (x y : Q) : Qgtb x y = true <-> (y < x)%Q.
Proof.
  unfold Qgtb. rewrite negb_true_iff. split.
  - intros H. apply Qnot_le_lt. intros Hle. apply Qle_bool_iff in Hle. congruence.
  - intros H. apply not_true_is_false. intros Hle. apply Qle_bool_iff in Hle.
    exact (Qlt_not_le _ _ H Hle).
Qed.

Lemma Qgtb_false (x y : Q) : Qgtb x y = false <-> (x <= y)%Q.
Proof.
  unfold Qgtb. rewrite negb_false_iff. apply Qle_bool_iff.
Qed.

Lemma last_clock_cons (before : Q) (p : poll) (polls : list poll) :
  last_clock before (p :: polls) = last_clock (clock p) polls.
Proof.
  unfold last_clock. simpl map.
  generalize (clock p). generalize (map clock polls). clear.
  intros l. revert before. induction l as [| a l IH]; intros before c; [reflexivity |].
  change (List.last (c :: a :: l) before) with (List.last (a :: l) before).
  rewrite (IH before a), (IH c a). reflexivity.
Qed.

(** Polls that find the line low within the deadline only move
    [pulse_start]. *)
Lemma wait_high_within (timeout : Q) (lows rest : list poll) :
  forall pulse_start,
    Forall (fun p => low p /\ (clock p <= timeout)%Q) lows ->
    wait_high timeout pulse_start (lows ++ rest)
    = wait_high timeout (last_clock pulse_start lows) rest.
Proof.
  induction lows as [| p lows IH]; intros pulse_start Hlows; [reflexivity |].
  inversion_clear Hlows as [| ? ? [Hp Hclock] Hrest].
  rewrite last_clock_cons. simpl. rewrite Hp.
  apply Qgtb_false in Hclock. rewrite Hclock. by apply IH.
Qed.

(** Polls that find the line low either run into the deadline or leave
    the first loop running. *)
Lemma wait_high_lows (timeout : Q) (lows rest : list poll) :
  forall pulse_start,
    Forall low lows ->
    wait_high timeout pulse_start (lows ++ rest) = Return None
    \/ exists pulse_start',
        wait_high timeout pulse_start (lows ++ rest)
        = wait_high timeout pulse_start' rest.
Proof.
  induction lows as [| p lows IH]; intros pulse_start Hlows; [right; by eexists |].
  inversion_clear Hlows as [| ? ? Hp Hrest].
  simpl. rewrite Hp. destruct (Qgtb (clock p) timeout); [by left |]. by apply IH.
Qed.

Lemma wait_low_within (pulse_start timeout : Q) (highs rest : list poll) :
  forall pulse_end,
    Forall (fun p => high p /\ (clock p <= timeout)%Q) highs ->
    wait_low pulse_start timeout pulse_end (highs ++ rest)
    = wait_low pulse_start timeout (last_clock pulse_end highs) rest.
Proof.
  induction highs as [| p highs IH]; intros pulse_end Hhighs; [reflexivity |].
  inversion_clear Hhighs as [| ? ? [Hp Hclock] Hrest].
  rewrite last_clock_cons. simpl. rewrite Hp.
  apply Qgtb_false in Hclock. rewrite Hclock. by apply IH.
Qed.

Lemma wait_low_highs (pulse_start timeout : Q) (highs rest : list poll) :
  forall pulse_end,
    Forall high highs ->
    wait_low pulse_start timeout pulse_end (highs ++ rest) = Return None
    \/ exists pulse_end',
        wait_low pulse_start timeout pulse_end (highs ++ rest)
        = wait_low pulse_start timeout pulse_end' rest.
Proof.
  induction highs as [| p highs IH]; intros pulse_end Hhighs; [right; by eexists |].
  inversion_clear Hhighs as [| ? ? Hp Hrest].
  simpl. rewrite Hp. destruct (Qgtb (clock p) timeout); [by left |]. by apply IH.
Qed.

(** When the second loop gives up, a poll found the line high after its
    deadline. *)
Lemma wait_low_None (pulse_start timeout : Q) (tr : list poll) :
  forall pulse_end,
    wait_low pulse_start timeout pulse_end tr = Return None ->
    exists highs p rest,
      tr = highs ++ p :: rest /\ Forall high highs /\ high p
      /\ (timeout < clock p)%Q.
Proof.
  induction tr as [| q tr IH]; intros pulse_end Hrun; [discriminate |].
  simpl in Hrun. destruct (echo q) eqn:Hq; [| discriminate].
  destruct (Qgtb (clock q) timeout) eqn:Hgt.
  - apply Qgtb_spec in Hgt. exists [], q, tr. by repeat split.
  - destruct (IH _ Hrun) as (highs & p & rest & -> & Hhighs & Hp & Hlate).
    exists (q :: highs), p, rest. repeat split; try done. by constructor.
Qed.

Lemma wait_high_None (now : Q) (tr : list poll) :
  forall pulse_start,
    wait_high (now + 0.04) pulse_start tr = Return None -> timed_out now tr.
Proof.
  induction tr as [| q tr IH]; intros pulse_start Hrun; [discriminate |].
  simpl in Hrun. destruct (echo q) eqn:Hq.
  - apply wait_low_None in Hrun as (highs & p & rest & -> & Hhighs & Hp & Hlate).
    by apply (no_falling_edge now [] q highs p rest).
  - destruct (Qgtb (clock q) (now + 0.04)) eqn:Hgt.
    + apply Qgtb_spec in Hgt. by apply (no_rising_edge now [] q tr).
    + apply IH in Hrun. inversion Hrun as [lows p rest | lows h highs p rest]; subst.
      * apply (no_rising_edge now (q :: lows) p rest); try done. by constructor.
      * apply (no_falling_edge now (q :: lows) h highs p rest); try done.
        by constructor.
Qed.

Lemma timed_out_None (now : Q) (tr : list poll) :
  timed_out now tr -> read_ultrasonic now tr = Return None.
Proof.
  unfold read_ultrasonic.
  intros [lows p rest Hlows Hp Hlate | lows h highs p rest Hlows Hh Hhighs Hp Hlate].
  - destruct (wait_high_lows (now + 0.04) lows (p :: rest) now Hlows)
      as [-> | [ps ->]]; [done |].
    simpl. rewrite Hp. apply Qgtb_spec in Hlate. by rewrite Hlate.
  - destruct (wait_high_lows (now + 0.04) lows (h :: highs ++ p :: rest) now Hlows)
      as [-> | [ps ->]]; [done |].
    simpl. rewrite Hh.
    destruct (wait_low_highs ps (clock h + 0.04) highs (p :: rest) (clock h) Hhighs)
      as [-> | [pe ->]]; [done |].
    simpl. rewrite Hp. apply Qgtb_spec in Hlate. by rewrite Hlate.
Qed.

(** C7, as the code has it.  [read_ultrasonic] returns [None] exactly
    when a poll still finds the echo line low more than 40 ms after the
    first clock reading, or still finds it high more than 40 ms after the
    reading taken when the line was first seen high.  There is no other
    failure: a run ends in [None] or in a distance. *)
Theorem read_ultrasonic_timeout (now : Q) (tr : list poll) :
  timed_out now tr <-> read_ultrasonic now tr = Return None.
Proof.
  split; [apply timed_out_None | apply wait_high_None].
Qed.

(** When both edges are seen in time, the distance is computed from the
    reading left in [pulse_start] (the clock reading after the last poll
    that found the line low) and the reading left in [pulse_end] (the
    reading after the last poll that found it high). *)
Theorem read_ultrasonic_distance
    (now : Q) (lows : list poll) (h : poll) (highs : list poll)
    (p : poll) (rest : list poll) :
  Forall (fun q => low q /\ (clock q <= now + 0.04)%Q) lows ->
  high h ->
  Forall (fun q => high q /\ (clock q <= clock h + 0.04)%Q) highs ->
  low p ->
  let pulse_start := last_clock now lows in
  let pulse_end := last_clock (clock h) highs in
  read_ultrasonic now (lows ++ h :: highs ++ p :: rest)
  = Return (Some (py_round2 ((pulse_end - pulse_start) * 17150))).
Proof.
  intros Hlows Hh Hhighs Hp pulse_start pulse_end. unfold read_ultrasonic.
  rewrite wait_high_within by done. simpl. rewrite Hh.
  rewrite wait_low_within by done. simpl. rewrite Hp. reflexivity.
Qed.

(** A run that is still polling has met no deadline yet. *)
Lemma read_ultrasonic_Polling (now : Q) (tr : list poll) :
  read_ultrasonic now tr = Polling ->
  Forall (fun q => low q /\ (clock q <= now + 0.04)%Q) tr
  \/ exists lows h highs,
      tr = lows ++ h :: highs
      /\ Forall (fun q => low q /\ (clock q <= now + 0.04)%Q) lows
      /\ high h
      /\ Forall (fun q => high q /\ (clock q <= clock h + 0.04)%Q) highs.
Proof.
  unfold read_ultrasonic. generalize now at 2 as pulse_start.
  induction tr as [| q tr IH]; intros pulse_start Hrun; [by left |].
  simpl in Hrun. destruct (echo q) eqn:Hq.
  - right. exists [], q, tr. repeat split; try done.
    clear IH. revert Hrun. generalize (clock q) at 2 as pulse_end.
    induction tr as [| r tr IH]; intros pulse_end Hrun; [constructor |].
    simpl in Hrun. destruct (echo r) eqn:Hr; [| discriminate].
    destruct (Qgtb (clock r) (clock q + 0.04)) eqn:Hgt; [discriminate |].
    apply Qgtb_false in Hgt. constructor; [done |]. by apply (IH (clock r)).
  - destruct (Qgtb (clock q) (now + 0.04)) eqn:Hgt; [discriminate |].
    apply Qgtb_false in Hgt.
    destruct (IH _ Hrun) as [Hall | (lows & h & highs & -> & Hlows & Hh & Hhighs)].
    + left. by constructor.
    + right. exists (q :: lows), h, highs. repeat split; try done. by constructor.
Qed.

(** ** The history lists *)

Lemma last_n_length {A} (n : nat) (l : list A) :
  length (last_n n l) = min (length l) n.
Proof. unfold last_n. rewrite length_drop. lia. Qed.

(** The list was full: the oldest entry goes. *)
Lemma last_n_push_full {A} (n : nat) (l : list A) (x : A) :
  n < min (length l) n + 1 ->
  last_n n (last_n n l ++ [x]) = last_n n (l ++ [x]).
Proof.
  intros Hfull. unfold last_n. rewrite !length_app, length_drop. simpl.
  replace (length l - (length l - n) + 1 - n) with (length l + 1 - n - (length l - n)) by lia.
  destruct (decide (n = 0)) as [-> | Hn].
  - rewrite !drop_ge; [done | rewrite length_app; simpl; lia |].
    rewrite length_app, length_drop. simpl. lia.
  - rewrite (drop_app_le l) by lia.
    rewrite (drop_app_le (drop _ l)) by (rewrite length_drop; lia).
    rewrite drop_drop. f_equal. f_equal. lia.
Qed.

(** There was room: nothing goes. *)
Lemma last_n_push_room {A} (n : nat) (l : list A) (x : A) :
  ~ n < min (length l) n + 1 ->
  last_n n l ++ [x] = last_n n (l ++ [x]).
Proof.
  intros Hroom. unfold last_n. rewrite length_app. simpl.
  replace (length l - n) with 0 by lia.
  replace (length l + 1 - n) with 0 by lia. reflexivity.
Qed.

Lemma last_n_all {A} (n : nat) (l : list A) :
  length l <= n -> last_n n l = l.
Proof. intros Hle. unfold last_n. by replace (length l - n) with 0 by lia. Qed.

Section Loop.
Context {L : PyLib}.

Lemma stamps_cons (r : Round) (rounds : list Round) (ds : list datetime) :
  stamps (r :: rounds) = Some ds ->
  exists d ds', strptime (timestamp r) = Some d /\ stamps rounds = Some ds'
                /\ ds = d :: ds'.
Proof.
  unfold stamps. intros H. apply mapM_Some in H.
  inversion H as [| ? d ? ds' Hd Hrest]; subst.
  exists d, ds'. split; [done |]. split; [by apply mapM_Some | done].
Qed.

Lemma stamps_length (rounds : list Round) (ds : list datetime) :
  stamps rounds = Some ds -> length rounds = length ds.
Proof. unfold stamps. intros H. apply mapM_Some in H. by eapply Forall2_length. Qed.

Lemma stamps_snoc (rounds : list Round) (ds : list datetime) (r : Round) (d : datetime) :
  stamps rounds = Some ds -> strptime (timestamp r) = Some d ->
  stamps (rounds ++ [r]) = Some (ds ++ [d]).
Proof.
  unfold stamps. intros H Hd. apply mapM_Some. apply mapM_Some in H.
  apply Forall2_app; [done |]. by repeat constructor.
Qed.

Lemma stamps_drop (k : nat) (rounds : list Round) (ds : list datetime) :
  stamps rounds = Some ds -> stamps (drop k rounds) = Some (drop k ds).
Proof.
  unfold stamps. intros H. apply mapM_Some. apply mapM_Some in H.
  by apply Forall2_drop.
Qed.

Lemma published_snoc (rounds : list Round) (ds : list datetime) (r : Round) (d : datetime) :
  published (rounds ++ [r]) (ds ++ [d])
  = with_sample d (temperature r) (ppm_of (gas_state r)) (level r)
      (published rounds ds).
Proof. unfold published, with_sample. simpl. by rewrite !map_app. Qed.

Lemma recent_published (n : nat) (rounds : list Round) (ds : list datetime) :
  length rounds = length ds ->
  recent n (published rounds ds) = published (last_n n rounds) (last_n n ds).
Proof.
  intros Hlen. unfold recent, published, last_n. simpl.
  rewrite !length_map, <- Hlen. by rewrite !fmap_drop.
Qed.

(** Appending a sample and trimming, on lists that hold the last
    [max_len] entries of lists of one length. *)
Lemma maintain_with_sample (s : Series) (d : datetime) (t : option Q) (g : Z) (l : option Q) :
  length (temps s) = length (times s) ->
  length (gas_values s) = length (times s) ->
  length (levels s) = length (times s) ->
  maintain (with_sample d t g l (recent max_len s))
  = recent max_len (with_sample d t g l s).
Proof.
  intros Ht Hg Hl. unfold maintain, with_sample, recent. simpl.
  rewrite length_app, last_n_length. simpl.
  destruct (max_len <? min (length (times s)) max_len + 1)%nat eqn:Hfull.
  - apply Nat.ltb_lt in Hfull.
    rewrite !last_n_push_full; try done; by rewrite ?Ht, ?Hg, ?Hl.
  - apply Nat.ltb_nlt in Hfull.
    rewrite !last_n_push_room; try done; by rewrite ?Ht, ?Hg, ?Hl.
Qed.

Lemma published_lengths (rounds : list Round) (ds : list datetime) :
  length rounds = length ds ->
  length (temps (published rounds ds)) = length (times (published rounds ds))
  /\ length (gas_values (published rounds ds)) = length (times (published rounds ds))
  /\ length (levels (published rounds ds)) = length (times (published rounds ds)).
Proof. intros Hlen. simpl. by rewrite !length_map. Qed.

Lemma float_cell_or_NA (v : option Q) : float_cell (or_NA v) = v.
Proof. by destruct v. Qed.

(** An iteration whose timestamp parses. *)
Lemma sensor_iter_ok (r : Round) (a : App) (d : datetime) :
  strptime (timestamp r) = Some d ->
  sensor_iter r a
  = ({| temp_threshold := temp_threshold a;
        gas_threshold := gas_threshold a;
        log := append_row (log_row r) (log a);
        series := maintain (with_sample d (temperature r) (ppm_of (gas_state r))
                              (level r) (series a)) |},
     Some tt).
Proof.
  intros Hd. unfold sensor_iter, bind, modify, lift, ret. simpl. rewrite Hd. simpl.
  by rewrite !float_cell_or_NA.
Qed.

(** An iteration whose timestamp does not parse: the row is in the log,
    the lists are untouched and the exception ends the loop. *)
Lemma sensor_iter_raise (r : Round) (a : App) :
  strptime (timestamp r) = None ->
  sensor_iter r a = (set_log (append_row (log_row r)) a, None).
Proof.
  intros Hd. unfold sensor_iter, bind, modify, lift, raise. simpl. by rewrite Hd.
Qed.

(** Names the state the rest of the loop starts from. *)
Ltac next_state a :=
  match goal with
  | |- context [for_each _ sensor_iter ?x] => set (a := x)
  end.

Lemma sensor_loop_run (rounds : list Round) :
  forall (a : App) (done : list Round) (ds0 ds : list datetime),
    length done = length ds0 ->
    series a = recent max_len (published done ds0) ->
    stamps rounds = Some ds ->
    exists a',
      sensor_loop rounds a = (a', Some tt)
      /\ series a' = recent max_len (published (done ++ rounds) (ds0 ++ ds)).
Proof.
  induction rounds as [| r rounds IH]; intros a done ds0 ds Hlen Ha Hds.
  - injection Hds as <-. exists a. by rewrite !app_nil_r.
  - apply stamps_cons in Hds as (d & ds' & Hd & Hds' & ->).
    unfold sensor_loop. simpl. unfold bind at 1. rewrite (sensor_iter_ok r a d Hd).
    destruct (published_lengths done ds0 Hlen) as (Ht & Hg & Hl).
    next_state a1.
    destruct (IH a1 (done ++ [r]) (ds0 ++ [d]) ds') as (a' & Hrun & Hseries);
      [| | exact Hds' |].
    + rewrite !length_app. simpl. lia.
    + simpl. rewrite Ha, maintain_with_sample by done. by rewrite published_snoc.
    + exists a'. split; [exact Hrun |].
      by rewrite Hseries, <- !app_assoc.
Qed.

(** Whatever the timestamps, the loop leaves the last [max_len] samples
    of the rounds it got through. *)
Lemma sensor_loop_prefix (rounds : list Round) :
  forall (a : App) (done : list Round) (ds0 : list datetime),
    length done = length ds0 ->
    series a = recent max_len (published done ds0) ->
    exists (taken rest : list Round) (ds : list datetime),
      rounds = taken ++ rest
      /\ stamps taken = Some ds
      /\ series (sensor_loop rounds a).1
         = recent max_len (published (done ++ taken) (ds0 ++ ds)).
Proof.
  induction rounds as [| r rounds IH]; intros a done ds0 Hlen Ha.
  - exists [], [], []. by rewrite !app_nil_r.
  - unfold sensor_loop. simpl. unfold bind at 1.
    destruct (strptime (timestamp r)) as [d |] eqn:Hd.
    + rewrite (sensor_iter_ok r a d Hd).
      destruct (published_lengths done ds0 Hlen) as (Ht & Hg & Hl).
      next_state a1.
      destruct (IH a1 (done ++ [r]) (ds0 ++ [d])) as (taken & rest & ds & -> & Hds & Hseries);
        [| | exists (r :: taken), rest, (d :: ds)].
      * rewrite !length_app. simpl. lia.
      * simpl. rewrite Ha, maintain_with_sample by done. by rewrite published_snoc.
      * split; [done |]. split.
        { unfold stamps in *. simpl. by rewrite Hd, Hds. }
        unfold sensor_loop in Hseries. rewrite Hseries. by rewrite <- !app_assoc.
    + rewrite (sensor_iter_raise r a Hd). exists [], (r :: rounds), [].
      by rewrite !app_nil_r.
Qed.

(** C4. Started with empty lists, the loop leaves after [k] rounds the
    last [min k 100] samples, in the order they came; after 101 rounds
    these are the 100 samples from the second to the last. *)
Theorem history_keeps_most_recent
    (f : option string) (rounds : list Round) (ds : list datetime) :
  stamps rounds = Some ds ->
  exists a : App,
    sensor_loop rounds (init_app f) = (a, Some tt)
    /\ series a = recent 100 (published rounds ds)
    /\ length (times (series a)) = min (length rounds) 100
    /\ (length rounds = 101 ->
        series a = published (drop 1 rounds) (drop 1 ds)).
Proof.
  intros Hds.
  destruct (sensor_loop_run rounds (init_app f) [] [] ds) as (a & Hrun & Hseries);
    [done | done | done |].
  simpl in Hseries. exists a. split; [exact Hrun |]. split; [exact Hseries |].
  pose proof (stamps_length _ _ Hds) as Hlen.
  rewrite Hseries. split.
  - cbn [recent published times]. rewrite last_n_length. unfold max_len. lia.
  - intros H101. rewrite recent_published by done.
    unfold last_n. rewrite <- Hlen, H101. reflexivity.
Qed.

(** C10. After any number of iterations the four lists have one length,
    at most 100, and hold, index by index, the fields of the same rounds:
    a run of consecutive rounds of the input. *)
Theorem history_lists_aligned (f : option string) (rounds : list Round) :
  let s := series (sensor_loop rounds (init_app f)).1 in
  length (temps s) = length (times s)
  /\ length (gas_values s) = length (times s)
  /\ length (levels s) = length (times s)
  /\ length (times s) <= 100
  /\ exists (before kept after : list Round) (ds : list datetime),
      rounds = before ++ kept ++ after
      /\ stamps kept = Some ds
      /\ s = published kept ds.
Proof.
  intros s.
  destruct (sensor_loop_prefix rounds (init_app f) [] [])
    as (taken & rest & ds & Hsplit & Hds & Hseries); [done | done |].
  simpl in Hseries. fold s in Hseries.
  pose proof (stamps_length _ _ Hds) as Hlen.
  rewrite recent_published in Hseries by done.
  assert (Hkept : stamps (last_n max_len taken) = Some (last_n max_len ds)).
  { unfold last_n. rewrite <- Hlen. by apply stamps_drop. }
  pose proof (stamps_length _ _ Hkept) as Hlen'.
  destruct (published_lengths _ _ Hlen') as (Ht & Hg & Hl).
  rewrite Hseries. split; [exact Ht |]. split; [exact Hg |]. split; [exact Hl |].
  split.
  - cbn [published times]. rewrite last_n_length. unfold max_len. lia.
  - exists (take (length taken - max_len) taken), (last_n max_len taken), rest,
      (last_n max_len ds).
    split; [| done]. rewrite app_assoc. unfold last_n. by rewrite take_drop.
Qed.

End Loop.

(** ** Reading the log back *)

(** What follows a [try] that catches everything starts from the state
    the [try] leaves. *)
Lemma caught_then {S B} (body : Py S unit) (k : Py S B) (s : S) :
  (try_except body (ret tt) >> k)%py s = k (try_except body (ret tt) s).1.
Proof.
  unfold bind, try_except, ret. destruct (body s) as [s' [[] |]]; reflexivity.
Qed.

(** A loop whose body catches every exception runs to its end. *)
Lemma for_each_caught_app {S A} (body : A -> Py S unit) (xs ys : list A) :
  forall s,
    for_each (xs ++ ys) (fun x => try_except (body x) (ret tt)) s
    = for_each ys (fun x => try_except (body x) (ret tt))
        (for_each xs (fun x => try_except (body x) (ret tt)) s).1.
Proof.
  induction xs as [| x xs IH]; intros s; [reflexivity |].
  simpl. rewrite !caught_then. apply IH.
Qed.

Section Reader.
Context {L : PyLib}.

(** The dictionary [DictReader] builds for a row of five fields under
    the header of the log. *)
Lemma dict_row_header (a b c d e : string) :
  let row := dict_row header [a; b; c; d; e] in
  row !! "Timestamp" = Some (Some a)
  /\ row !! "TEMP" = Some (Some b)
  /\ row !! "PPM" = Some (Some c)
  /\ row !! "LEVEL" = Some (Some d).
Proof.
  unfold dict_row, header.
  cbn [foldl zip_with map app replicate length Nat.sub fst snd].
  split; [| split; [| split]];
    rewrite !lookup_insert_ne by done; apply lookup_insert_eq.
Qed.

(** The rows [read_csv_data] iterates over when a row is added to a log
    that starts with a header line. *)
Lemma DictReader_snoc (fieldnames : list string) (old : list (list string))
    (row : list string) :
  row <> [] ->
  DictReader (fieldnames :: old ++ [row])
  = DictReader (fieldnames :: old) ++ [dict_row fieldnames row].
Proof.
  intros Hrow. unfold DictReader. rewrite filter_app, map_app. f_equal.
  rewrite filter_cons_True by done. reflexivity.
Qed.

Lemma read_row_logged (r : Round) (d : datetime) (s : Series) :
  strptime (timestamp r) = Some d ->
  reads_back (temperature r) ->
  reads_back (level r) ->
  py_int (str_int (ppm_of (gas_state r))) = Some (ppm_of (gas_state r)) ->
  read_row (dict_row header (log_row r)) s
  = (with_sample d (temperature r) (ppm_of (gas_state r)) (level r) s, Some tt).
Proof.
  intros Hd Ht Hl Hg. unfold log_row.
  destruct (dict_row_header (timestamp r) (str_cell (or_NA (temperature r)))
              (str_int (ppm_of (gas_state r))) (str_cell (or_NA (level r)))
              (anomaly_detection (or_NA (temperature r)) (or_NA (level r))))
    as (Hts & Htemp & Hppm & Hlev).
  unfold read_row, getitem, parse.
  unfold bind at 1. rewrite Hts. cbn [lift ret].
  unfold bind at 1. cbn [mbind option_bind]. rewrite Hd. cbn [lift ret].
  unfold bind at 1. cbn [modify].
  unfold bind at 1. rewrite Htemp. cbn [lift ret].
  assert (Hcell : forall (v : option Q) (s0 : Series),
             reads_back v ->
             (if decide (Some (str_cell (or_NA v)) = Some "N/A") then ret None
              else (let! x := lift (Some (str_cell (or_NA v)) ≫= py_float) in
                    ret (Some x))%py) s0
             = (s0, Some v)).
  { intros [x |] s0 Hv; cbn [or_NA str_cell].
    - destruct (Hv x eq_refl) as [Hx Hna].
      rewrite decide_False by congruence.
      unfold bind. cbn [mbind option_bind lift ret]. rewrite Hx. reflexivity.
    - by rewrite decide_True. }
  unfold bind at 1. rewrite (Hcell _ _ Ht).
  unfold bind at 1. cbn [modify].
  unfold bind at 1. rewrite Hppm. cbn [lift ret].
  unfold bind at 1. cbn [mbind option_bind]. rewrite Hg. cbn [lift ret].
  unfold bind at 1. cbn [modify].
  unfold bind at 1. rewrite Hlev. cbn [lift ret].
  unfold bind at 1. rewrite (Hcell _ _ Hl).
  reflexivity.
Qed.

(** A row whose timestamp parses and whose temperature does not: the
    timestamp is appended before the exception is raised. *)
Lemma read_row_bad_temp (ts temp ppm lev anomaly : string) (d : datetime) (s : Series) :
  strptime ts = Some d ->
  temp <> "N/A" ->
  py_float temp = None ->
  read_row (dict_row header [ts; temp; ppm; lev; anomaly]) s
  = (append_times d s, None).
Proof.
  intros Hd Hna Hbad.
  destruct (dict_row_header ts temp ppm lev anomaly) as (Hts & Htemp & _).
  unfold read_row, getitem, parse.
  unfold bind at 1. rewrite Hts. cbn [lift ret].
  unfold bind at 1. cbn [mbind option_bind]. rewrite Hd. cbn [lift ret].
  unfold bind at 1. cbn [modify].
  unfold bind at 1. rewrite Htemp. cbn [lift ret].
  unfold bind at 1. rewrite decide_False by congruence.
  unfold bind at 1. cbn [mbind option_bind]. rewrite Hbad. reflexivity.
Qed.

(** C6. The row an iteration appends to a log that starts with the
    header reads back as the sample it was written from: the parsed
    timestamp, the temperature and the distance (absent for ["N/A"]) and
    the gas value, appended to what the log held before.  The premises
    are the laws of the library the row passes through: the reader
    returns the rows the writer wrote, [float] and [int] invert [str]. *)
Theorem log_row_round_trip
    (r : Round) (a : App) (content : string) (old : list (list string))
    (d : datetime) :
  log a = Some content ->
  csv_reader content = header :: old ->
  csv_reader (content +:+ csv_writerow (log_row r)) = header :: old ++ [log_row r] ->
  strptime (timestamp r) = Some d ->
  reads_back (temperature r) ->
  reads_back (level r) ->
  py_int (str_int (ppm_of (gas_state r))) = Some (ppm_of (gas_state r)) ->
  read_csv_data (log (sensor_iter r a).1)
  = with_sample d (temperature r) (ppm_of (gas_state r)) (level r)
      (read_csv_data (log a)).
Proof.
  intros Ha Hold Hnew Hd Ht Hl Hg.
  rewrite sensor_iter_log, Ha. unfold append_row, read_csv_data.
  change (default "" (Some content)) with content.
  rewrite Hnew, Hold, DictReader_snoc by done.
  rewrite for_each_caught_app. cbn [for_each].
  rewrite caught_then. cbn [ret fst]. unfold try_except.
  by rewrite (read_row_logged r d).
Qed.

(** C9, on the code.  A row whose timestamp parses and whose temperature
    does not is not skipped as a whole: its timestamp stays in [times],
    which is then one entry longer than the other three lists. *)
Theorem read_csv_data_keeps_partial_row
    (content ts temp ppm lev anomaly : string) (d : datetime) :
  csv_reader content = [header; [ts; temp; ppm; lev; anomaly]] ->
  strptime ts = Some d ->
  temp <> "N/A" ->
  py_float temp = None ->
  read_csv_data (Some content)
  = {| times := [d]; temps := []; gas_values := []; levels := [] |}.
Proof.
  intros Hrows Hd Hna Hbad. unfold read_csv_data. rewrite Hrows.
  unfold DictReader. rewrite filter_cons_True by done.
  cbn [filter list_filter map for_each]. rewrite caught_then. cbn [ret fst].
  unfold try_except. by rewrite (read_row_bad_temp _ _ _ _ _ d).
Qed.

End Reader.

(** ** The properties on concrete inputs *)

Section Runs.
#[local] Existing Instance RefLib.ref_lib.

Lemma faulty_round_logged :
  (temperature faulty_round = None \/ level faulty_round = None)
  /\ log (sensor_iter (L := RefLib.ref_lib) faulty_round tuned_app).1
     = append_row ["2025-01-01 12:00:01"; "N/A"; "1"; "N/A"; "Yes"] (Some fresh_log).
Proof.
  split; [by left |].
  exact (proj1 (proj2 (absent_reading_logged_anomalous (L := RefLib.ref_lib)
                         faulty_round tuned_app None (or_introl eq_refl)))).
Defined.

Lemma gas_changes_no_verdict :
  (temperature normal_round = temperature gassy_round
   /\ level normal_round = level gassy_round
   /\ gas_state normal_round <> gas_state gassy_round)
  /\ exists verdict : string,
      log (sensor_iter (L := RefLib.ref_lib) normal_round (init_app None)).1
      = append_row ["2025-01-01 12:00:00"; "23.5"; "0"; "120.34"; verdict] None
      /\ log (sensor_iter (L := RefLib.ref_lib) gassy_round tuned_app).1
         = append_row ["2025-01-01 12:00:02"; "23.5"; "1"; "120.34"; verdict]
             (Some fresh_log).
Proof.
  split; [by repeat split |].
  destruct (anomaly_flag_ignores_gas (L := RefLib.ref_lib) normal_round gassy_round
              (init_app None) tuned_app eq_refl eq_refl)
    as (verdict & H1 & H2 & _).
  exists verdict. split; [exact H1 | exact H2].
Defined.

Lemma fresh_log_untouched :
  fresh_log <> ""
  /\ ensure_initialized (L := RefLib.ref_lib) false (Some fresh_log) = Some fresh_log
  /\ ensure_initialized_headless (L := RefLib.ref_lib) (Some fresh_log) = Some fresh_log.
Proof.
  assert (Hne : fresh_log <> "") by (vm_compute; discriminate).
  split; [exact Hne |].
  destruct (ensure_initialized_idempotent (L := RefLib.ref_lib) fresh_log Hne)
    as (H1 & H2 & _).
  split; [exact H1 | exact H2].
Defined.

Lemma silent_echo_times_out :
  timed_out 0 silent_echo /\ read_ultrasonic 0 silent_echo = Return None.
Proof.
  assert (Hout : timed_out 0 silent_echo).
  { apply (no_rising_edge 0 [ {| instant := 0.0099; echo := false; clock := 0.01 |} ]
             {| instant := 0.0409; echo := false; clock := 0.041 |} []).
    - by repeat constructor.
    - reflexivity.
    - reflexivity. }
  split; [exact Hout |].
  exact (proj1 (read_ultrasonic_timeout 0 silent_echo) Hout).
Defined.

(** C7, as stated, fails on [late_echo]: time goes forward, the line is
    low at every sample taken within 40 ms of the first poll, and the
    function returns a distance, 343 cm, instead of [None]. *)
Lemma late_echo_is_measured :
  well_timed 0 late_echo
  /\ low_within_deadline late_echo
  /\ read_ultrasonic 0 late_echo = Return (Some (34300 # 100)).
Proof.
  split; [| split].
  - repeat split; by vm_compute.
  - repeat constructor; simpl; intros Hle; try reflexivity.
    exfalso. revert Hle. by vm_compute.
  - reflexivity.
Qed.

Lemma metre_echo_distance :
  read_ultrasonic 0.1 metre_echo = Return (Some (9947 # 100)).
Proof.
  apply (read_ultrasonic_distance 0.1
           [ {| instant := 0.10005; echo := false; clock := 0.1001 |};
             {| instant := 0.10015; echo := false; clock := 0.1002 |} ]
           {| instant := 0.10025; echo := true; clock := 0.1003 |}
           [ {| instant := 0.10295; echo := true; clock := 0.1030 |};
             {| instant := 0.10595; echo := true; clock := 0.1060 |} ]
           {| instant := 0.10605; echo := false; clock := 0.1061 |} []).
  - repeat constructor; by vm_compute.
  - reflexivity.
  - repeat constructor; by vm_compute.
  - reflexivity.
Defined.

Lemma burst_history :
  stamps (L := RefLib.ref_lib) burst = Some (replicate 101 noon)
  /\ exists a : App,
      sensor_loop burst (init_app None) = (a, Some tt)
      /\ series a = published (drop 1 burst) (replicate 100 noon).
Proof.
  assert (Hds : stamps (L := RefLib.ref_lib) burst = Some (replicate 101 noon))
    by (vm_compute; reflexivity).
  split; [exact Hds |].
  destruct (history_keeps_most_recent (L := RefLib.ref_lib) None burst _ Hds)
    as (a & Hrun & _ & _ & H101).
  exists a. split; [exact Hrun |]. exact (H101 eq_refl).
Defined.

Lemma normal_round_reads_back :
  read_csv_data (log (sensor_iter (L := RefLib.ref_lib) normal_round tuned_app).1)
  = {| times := [noon]; temps := [Some (47 # 2)];
       gas_values := [0%Z]; levels := [Some (6017 # 50)] |}.
Proof.
  apply (log_row_round_trip (L := RefLib.ref_lib) normal_round tuned_app fresh_log [] noon).
  - reflexivity.
  - by vm_compute.
  - by vm_compute.
  - by vm_compute.
  - intros x [= <-]. split; [by vm_compute | vm_compute; discriminate].
  - intros x [= <-]. split; [by vm_compute | vm_compute; discriminate].
  - by vm_compute.
Defined.

Lemma damaged_log_misaligned :
  read_csv_data (L := RefLib.ref_lib) (Some damaged_log)
  = {| times := [noon]; temps := []; gas_values := []; levels := [] |}.
Proof.
  apply (read_csv_data_keeps_partial_row (L := RefLib.ref_lib) damaged_log
           "2025-01-01 12:00:00" "abc" "0" "120.34" "No" noon).
  - by vm_compute.
  - by vm_compute.
  - discriminate.
  - by vm_compute.
Defined.

End Runs.

(** * Further properties *)

(** ** The fault banner *)


(** Both tests of the commented file give what the tests of the
    original give. *)
Lemma commented_tests_agree
    (temp_val level_val : cell) (temp_threshold : Q) (gas_threshold : Z)
    (last_temp : option Q) (last_gas : Z) (last_level : option Q) :
  anomaly_detection_commented temp_val level_val
  = anomaly_detection temp_val level_val
  /\ latest_fault_commented temp_threshold gas_threshold last_temp last_gas last_level
     = latest_fault temp_threshold gas_threshold last_temp last_gas last_level.
Proof.
  split.
  - destruct temp_val as [t |], level_val as [l |]; try reflexivity.
    unfold anomaly_detection_commented, anomaly_detection.
    destruct (between 0 t 50), (between 0 l 400); reflexivity.
  - destruct last_temp as [t |], last_level as [l |]; try reflexivity.
    unfold latest_fault_commented, latest_fault, between, Qltb, Qgtb.
    destruct (Qle_bool t temp_threshold), (last_gas >? gas_threshold)%Z,
      (Qle_bool 0 l), (Qle_bool l 400); reflexivity.
Qed.

(** The methods of the commented file do what those of the original do:
    on every sequence of rounds and from every state, its [sensor_loop]
    leaves the same log, the same lists and the same outcome, and on
    every state its [update_plots] gives the same message. *)
Theorem commented_variant_agrees `{PyLib} (rounds : list Round) (a : App) :
  sensor_loop_commented rounds a = sensor_loop rounds a
  /\ fault_detection_commented a = fault_detection a.
Proof.
  split.
  - assert (Hiter : forall r a0, sensor_iter_commented r a0 = sensor_iter r a0).
    { intros r a0. unfold sensor_iter_commented, sensor_iter, log_row_commented, log_row.
      by rewrite (proj1 (commented_tests_agree _ _ 0 0%Z None 0%Z None)). }
    unfold sensor_loop_commented, sensor_loop. revert a.
    induction rounds as [| r rounds IH]; intros a; [reflexivity |].
    cbn [for_each]. unfold bind. rewrite Hiter.
    destruct (sensor_iter r a) as [a' [[] |]]; [apply IH | reflexivity].
  - unfold fault_detection_commented, fault_detection.
    destruct (list.last (temps (series a))) as [last_temp |]; [| reflexivity].
    destruct (list.last (gas_values (series a))) as [last_gas |]; [| reflexivity].
    destruct (list.last (levels (series a))) as [last_level |]; [| reflexivity].
    apply commented_tests_agree; exact NA.
Qed.

Lemma last_last_n_snoc {A} (n : nat) (l : list A) (x : A) :
  list.last (last_n (S n) (l ++ [x])) = Some x.
Proof.
  unfold last_n. rewrite length_app. simpl length.
  rewrite drop_app_le by lia. apply last_snoc.
Qed.

Section BannerProperties.
Context {L : PyLib}.

(** After [maintain] the lists still end with the sample just appended. *)
Lemma maintain_last (s : Series) (d : datetime) (t : option Q) (g : Z) (l : option Q) :
  let s' := maintain (with_sample d t g l s) in
  list.last (times s') = Some d /\ list.last (temps s') = Some t
  /\ list.last (gas_values s') = Some g /\ list.last (levels s') = Some l.
Proof.
  unfold maintain, with_sample. cbn [times temps gas_values levels].
  destruct (max_len <? length (times s ++ [d]))%nat;
    cbn [times temps gas_values levels]; unfold max_len;
    rewrite ?last_last_n_snoc, ?last_snoc; done.
Qed.

(** The message shown after an iteration is computed from the round of
    that iteration and the thresholds, whatever the lists held before. *)
Lemma fault_detection_after_iter (r : Round) (a : App) (d : datetime) :
  strptime (timestamp r) = Some d ->
  fault_detection (sensor_iter r a).1
  = latest_fault (temp_threshold a) (gas_threshold a)
      (temperature r) (ppm_of (gas_state r)) (level r).
Proof.
  intros Hd. rewrite (sensor_iter_ok r a d Hd). unfold fault_detection.
  cbn [fst series temp_threshold gas_threshold].
  destruct (maintain_last (series a) d (temperature r) (ppm_of (gas_state r)) (level r))
    as (_ & -> & -> & ->).
  reflexivity.
Qed.

(** With the temperature threshold at 50 or above and the gas threshold
    at 1 or above (the values [__init__] gives them), a fault message
    after an iteration means the row of that iteration was logged with
    [Anomaly] set to ["Yes"]. *)
Theorem fault_message_implies_logged_anomaly (r : Round) (a : App) (d : datetime) :
  strptime (timestamp r) = Some d ->
  (50 <= temp_threshold a)%Q ->
  (1 <= gas_threshold a)%Z ->
  fault_detection (sensor_iter r a).1 <> "" ->
  anomaly_detection (or_NA (temperature r)) (or_NA (level r)) = "Yes".
Proof.
  intros Hd Hthr Hgas. rewrite (fault_detection_after_iter r a d Hd).
  destruct (temperature r) as [t |], (level r) as [l |]; try reflexivity.
  cbn [or_NA]. unfold latest_fault. rewrite anomaly_detection_cases.
  assert (Hg : (ppm_of (gas_state r) >? gas_threshold a)%Z = false).
  { unfold ppm_of. destruct (gas_state r =? 0)%Z; lia. }
  rewrite Hg, orb_false_r.
  destruct (between 0 t 50) eqn:Ht, (between 0 l 400) eqn:Hl; cbn [andb];
    try done.
  apply between_spec in Ht, Hl. destruct Ht as [_ Ht], Hl as [Hl0 Hl400].
  assert (H1 : Qgtb t (temp_threshold a) = false).
  { apply Qgtb_false. by apply Qle_trans with 50%Q. }
  assert (H2 : Qltb l 0 = false).
  { unfold Qltb. apply negb_false_iff. by apply Qle_bool_iff. }
  assert (H3 : Qgtb l 400 = false) by by apply Qgtb_false.
  rewrite H1, H2, H3. cbn [orb]. done.
Qed.

(** A temperature below zero goes unreported on the status label: the
    row is logged as an anomaly, and the message is empty as long as the
    threshold is not negative and nothing else is wrong. *)
Theorem cold_reading_logged_not_shown
    (r : Round) (a : App) (d : datetime) (t l : Q) :
  strptime (timestamp r) = Some d ->
  temperature r = Some t -> level r = Some l ->
  (t < 0)%Q -> (0 <= temp_threshold a)%Q ->
  (0 <= l <= 400)%Q ->
  (ppm_of (gas_state r) <= gas_threshold a)%Z ->
  anomaly_detection (or_NA (temperature r)) (or_NA (level r)) = "Yes"
  /\ fault_detection (sensor_iter r a).1 = "".
Proof.
  intros Hd Ht Hl Hcold Hthr [Hl0 Hl400] Hgas.
  rewrite (fault_detection_after_iter r a d Hd), Ht, Hl. cbn [or_NA]. split.
  - rewrite anomaly_detection_cases.
    assert (H : between 0 t 50 = false) by (apply between_false; by left).
    by rewrite H.
  - unfold latest_fault.
    assert (H1 : Qgtb t (temp_threshold a) = false).
    { apply Qgtb_false. apply Qle_trans with 0%Q; [by apply Qlt_le_weak | done]. }
    assert (H2 : (ppm_of (gas_state r) >? gas_threshold a)%Z = false) by lia.
    assert (H3 : Qltb l 0 = false).
    { unfold Qltb. apply negb_false_iff. by apply Qle_bool_iff. }
    assert (H4 : Qgtb l 400 = false) by by apply Qgtb_false.
    by rewrite H1, H2, H3, H4.
Qed.

(** Gas reaches the status label and not the log: with the gas threshold
    below 1, a round in which gas is detected while both readings are in
    range shows a fault, and its row is logged with [Anomaly] set to
    ["No"]. *)
Theorem gas_shown_not_logged (r : Round) (a : App) (d : datetime) (t l : Q) :
  strptime (timestamp r) = Some d ->
  temperature r = Some t -> level r = Some l ->
  (0 <= t <= 50)%Q -> (0 <= l <= 400)%Q ->
  gas_state r = 0%Z -> (gas_threshold a < 1)%Z ->
  anomaly_detection (or_NA (temperature r)) (or_NA (level r)) = "No"
  /\ fault_detection (sensor_iter r a).1 = "Critical fault detected!".
Proof.
  intros Hd Ht Hl Htin Hlin Hgas Hthr.
  rewrite (fault_detection_after_iter r a d Hd), Ht, Hl, Hgas. cbn [or_NA]. split.
  - rewrite anomaly_detection_cases.
    apply between_spec in Htin, Hlin. by rewrite Htin, Hlin.
  - unfold latest_fault.
    assert (H2 : (ppm_of 0 >? gas_threshold a)%Z = true) by (cbn; lia).
    rewrite H2, orb_true_r.
    by destruct (Qltb l 0 || Qgtb l 400).
Qed.

(** Before the first sample there is no message. *)
Lemma fault_detection_init (f : option string) :
  fault_detection (init_app f) = "".
Proof. reflexivity. Qed.

End BannerProperties.

(** ** More on the distance probe *)

(** A distance comes only from a second loop that saw the line fall
    before its deadline. *)
Lemma wait_low_Some (pulse_start timeout : Q) (tr : list poll) (dist : Q) :
  forall pulse_end,
    wait_low pulse_start timeout pulse_end tr = Return (Some dist) ->
    exists highs p rest,
      tr = highs ++ p :: rest
      /\ Forall (fun q => high q /\ (clock q <= timeout)%Q) highs
      /\ low p
      /\ dist = py_round2 ((last_clock pulse_end highs - pulse_start) * 17150).
Proof.
  induction tr as [| q tr IH]; intros pulse_end Hrun; [discriminate |].
  simpl in Hrun. destruct (echo q) eqn:Hq.
  - destruct (Qgtb (clock q) timeout) eqn:Hgt; [discriminate |].
    apply Qgtb_false in Hgt.
    destruct (IH _ Hrun) as (highs & p & rest & -> & Hhighs & Hp & ->).
    exists (q :: highs), p, rest. rewrite last_clock_cons.
    repeat split; try done. by constructor.
  - injection Hrun as <-. exists [], q, tr. by repeat split.
Qed.

Lemma wait_high_Some (now : Q) (tr : list poll) (dist : Q) :
  forall pulse_start,
    wait_high (now + 0.04) pulse_start tr = Return (Some dist) ->
    exists lows h highs p rest,
      tr = lows ++ h :: highs ++ p :: rest
      /\ Forall (fun q => low q /\ (clock q <= now + 0.04)%Q) lows
      /\ high h
      /\ Forall (fun q => high q /\ (clock q <= clock h + 0.04)%Q) highs
      /\ low p
      /\ dist = py_round2 ((last_clock (clock h) highs
                            - last_clock pulse_start lows) * 17150).
Proof.
  induction tr as [| q tr IH]; intros pulse_start Hrun; [discriminate |].
  simpl in Hrun. destruct (echo q) eqn:Hq.
  - apply wait_low_Some in Hrun as (highs & p & rest & -> & Hhighs & Hp & ->).
    exists [], q, highs, p, rest. by repeat split.
  - destruct (Qgtb (clock q) (now + 0.04)) eqn:Hgt; [discriminate |].
    apply Qgtb_false in Hgt.
    destruct (IH _ Hrun)
      as (lows & h & highs & p & rest & -> & Hlows & Hh & Hhighs & Hp & ->).
    exists (q :: lows), h, highs, p, rest. rewrite last_clock_cons.
    repeat split; try done. by constructor.
Qed.

(** The converse of the distance formula: whenever [read_ultrasonic]
    returns a distance, the trace is made of polls that found the line
    low within the first deadline, a poll that found it high, polls that
    found it high within the second deadline and a poll that found it
    low, and the distance is computed from the instants these leave. *)
Theorem read_ultrasonic_distance_inv (now : Q) (tr : list poll) (dist : Q) :
  read_ultrasonic now tr = Return (Some dist) ->
  exists lows h highs p rest,
    tr = lows ++ h :: highs ++ p :: rest
    /\ Forall (fun q => low q /\ (clock q <= now + 0.04)%Q) lows
    /\ high h
    /\ Forall (fun q => high q /\ (clock q <= clock h + 0.04)%Q) highs
    /\ low p
    /\ dist = py_round2 ((last_clock (clock h) highs - last_clock now lows) * 17150).
Proof. apply wait_high_Some. Qed.

Lemma round_half_even_nonneg (x : Q) : (0 <= x)%Q -> (0 <= round_half_even x)%Z.
Proof.
  intros Hx. unfold round_half_even.
  assert (Hf : (0 <= Qfloor x)%Z).
  { change 0%Z with (Qfloor 0). by apply Qfloor_resp_le. }
  destruct (Qcompare _ _); [destruct (Z.even _) | |]; lia.
Qed.

Lemma py_round2_nonneg (x : Q) : (0 <= x)%Q -> (0 <= py_round2 x)%Q.
Proof.
  intros Hx. unfold py_round2.
  assert (H : (0 <= round_half_even (x * 100))%Z).
  { apply round_half_even_nonneg. by apply Qmult_le_0_compat. }
  unfold Qle. simpl. lia.
Qed.

(** Along polls in time order the clock does not go back. *)
Lemma well_timed_app (now : Q) (polls rest : list poll) :
  well_timed now (polls ++ rest) ->
  (now <= last_clock now polls)%Q /\ well_timed (last_clock now polls) rest.
Proof.
  revert now. induction polls as [| p polls IH]; intros now Hwt.
  - split; [apply Qle_refl | exact Hwt].
  - destruct Hwt as (H1 & H2 & Hrest). rewrite last_clock_cons.
    destruct (IH _ Hrest) as [Hle Hwt']. split; [| exact Hwt'].
    apply Qle_trans with (clock p); [| exact Hle].
    by apply Qle_trans with (instant p).
Qed.

(** When the clock does not go back, the distance returned is not
    negative. *)
Theorem read_ultrasonic_nonneg (now : Q) (tr : list poll) (dist : Q) :
  well_timed now tr ->
  read_ultrasonic now tr = Return (Some dist) ->
  (0 <= dist)%Q.
Proof.
  intros Hwt Hrun. unfold read_ultrasonic in Hrun.
  apply wait_high_Some in Hrun
    as (lows & h & highs & p & rest & -> & _ & _ & _ & _ & ->).
  apply well_timed_app in Hwt as [_ (H1 & H2 & Hwt)].
  apply well_timed_app in Hwt as [Hle _].
  apply py_round2_nonneg. apply Qmult_le_0_compat; [| done].
  apply (proj1 (Qle_minus_iff _ _)).
  apply Qle_trans with (clock h); [| exact Hle].
  by apply Qle_trans with (instant h).
Qed.

Lemma wait_low_more (pulse_start timeout : Q) (tr more : list poll) (res : option Q) :
  forall pulse_end,
    wait_low pulse_start timeout pulse_end tr = Return res ->
    wait_low pulse_start timeout pulse_end (tr ++ more) = Return res.
Proof.
  induction tr as [| q tr IH]; intros pulse_end Hrun; [discriminate |].
  simpl in *. destruct (echo q); [| exact Hrun].
  destruct (Qgtb (clock q) timeout); [exact Hrun | by apply IH].
Qed.

(** Once the function has returned, the polls that would follow are not
    read: the result on a longer trace is the same. *)
Theorem read_ultrasonic_more (now : Q) (tr more : list poll) (res : option Q) :
  read_ultrasonic now tr = Return res ->
  read_ultrasonic now (tr ++ more) = Return res.
Proof.
  unfold read_ultrasonic. generalize (now + 0.04)%Q as timeout.
  generalize now as pulse_start. intros pulse_start timeout. revert pulse_start.
  induction tr as [| q tr IH]; intros pulse_start Hrun; [discriminate |].
  simpl in *. destruct (echo q); [by apply wait_low_more |].
  destruct (Qgtb (clock q) timeout); [exact Hrun | by apply IH].
Qed.

(** ** Start-up and logging *)

Lemma string_app_nil_r (s : string) : s +:+ "" = s.
Proof.
  induction s as [| c s IH]; [reflexivity |].
  change (String c (s +:+ "") = String c s). by rewrite IH.
Qed.

Lemma string_app_assoc (s1 s2 s3 : string) :
  s1 +:+ (s2 +:+ s3) = (s1 +:+ s2) +:+ s3.
Proof.
  induction s1 as [| c s1 IH]; [reflexivity |].
  change (String c (s1 +:+ (s2 +:+ s3)) = String c ((s1 +:+ s2) +:+ s3)).
  by rewrite IH.
Qed.

(** Names the state from which the remaining rounds are run. *)
Ltac loop_state a :=
  match goal with
  | |- context [for_each _ sensor_iter ?x] => set (a := x)
  end.

Section LogProperties.
Context {L : PyLib}.

(** When reading the log raises no [IOError], the two scripts initialise
    it in the same way: the probe with [read(1)] and the test on
    [tell()] lead to the same file, whether it was absent, empty or not.
    They part on a log with content that cannot be read, which the
    monitor rewrites and the console logger keeps. *)
Theorem ensure_initialized_variants_agree (f : option string) :
  ensure_initialized false f = ensure_initialized_headless f
  /\ (forall content : string,
        f = Some content -> content <> "" ->
        csv_writerow header <> content ->
        ensure_initialized true f <> ensure_initialized_headless f).
Proof.
  split.
  - destruct f as [[| c content] |]; reflexivity.
  - intros content -> Hne Hdiff.
    destruct content as [| c content]; [congruence |].
    change (ensure_initialized true (Some (String c content)))
      with (Some (csv_writerow header)).
    change (ensure_initialized_headless (Some (String c content)))
      with (Some (String c content)).
    intros Heq. injection Heq as Heq. by apply Hdiff.
Qed.

Lemma append_row_text (fields : list string) (content : string) (f : option string) :
  f = Some content ->
  append_row fields f = Some (content +:+ csv_writerow fields).
Proof. by intros ->. Qed.

(** The loop leaves the thresholds alone and never rewrites the log: it
    only adds the rows of its rounds, in order, after what was there. *)
Theorem sensor_loop_appends
    (rounds : list Round) (ds : list datetime) (a : App) (content : string) :
  stamps rounds = Some ds ->
  log a = Some content ->
  let a' := (sensor_loop rounds a).1 in
  log a' = Some (content +:+ rows_text rounds)
  /\ temp_threshold a' = temp_threshold a
  /\ gas_threshold a' = gas_threshold a.
Proof.
  cbv zeta. revert ds a content.
  induction rounds as [| r rounds IH]; intros ds a content Hds Ha.
  - unfold sensor_loop. cbn [for_each ret fst rows_text foldr].
    by rewrite Ha, string_app_nil_r.
  - apply stamps_cons in Hds as (d & ds' & Hd & Hds' & ->).
    unfold sensor_loop. cbn [for_each]. unfold bind at 1 2 3.
    rewrite (sensor_iter_ok r a d Hd). loop_state a1.
    destruct (IH ds' a1 (content +:+ csv_writerow (log_row r)) Hds')
      as (Hlog & Hthr & Hgas).
    { unfold a1. cbn [log]. by rewrite Ha. }
    unfold sensor_loop in Hlog, Hthr, Hgas.
    cbn [rows_text foldr]. rewrite Hlog, Hthr, Hgas.
    by rewrite string_app_assoc.
Qed.

(** On the same rounds the monitor and the console logger write the same
    log. *)
Theorem sensor_loop_logs_as_headless
    (rounds : list Round) (ds : list datetime) (a : App) :
  stamps rounds = Some ds ->
  log (sensor_loop rounds a).1 = headless_loop rounds (log a).
Proof.
  revert ds a. induction rounds as [| r rounds IH]; intros ds a Hds; [reflexivity |].
  apply stamps_cons in Hds as (d & ds' & Hd & Hds' & ->).
  unfold sensor_loop. cbn [for_each]. unfold bind at 1.
  rewrite (sensor_iter_ok r a d Hd). loop_state a1.
  pose proof (IH ds' a1 Hds') as Hlog. unfold sensor_loop in Hlog.
  rewrite Hlog. reflexivity.
Qed.

End LogProperties.

(** ** More on reading the log back *)

Section ReaderProperties.
Context {L : PyLib}.

Lemma dict_row_missing (fieldnames row : list string) (key : string) :
  key ∉ fieldnames -> dict_row fieldnames row !! key = None.
Proof.
  unfold dict_row.
  generalize (map Some row ++ replicate (length fieldnames - length row) None).
  generalize (∅ : gmap string (option string)) (lookup_empty (M := gmap string) (A := option string) key).
  induction fieldnames as [| f fieldnames IH]; intros d Hd values Hkey; [done |].
  destruct values as [| v values]; [done |].
  cbn [zip_with foldl fst snd]. apply IH; [| set_solver].
  rewrite lookup_insert_ne; [done | set_solver].
Qed.

Lemma read_row_no_timestamp (row : gmap string (option string)) (s : Series) :
  row !! "Timestamp" = None -> read_row row s = (s, None).
Proof.
  intros Hts. unfold read_row, getitem. unfold bind at 1. by rewrite Hts.
Qed.

(** A log whose first line does not name a [Timestamp] column yields
    nothing: every row raises [KeyError] before any [append], and is
    skipped. *)
Theorem read_csv_data_without_timestamp_column
    (content : string) (fieldnames : list string) (rows : list (list string)) :
  csv_reader content = fieldnames :: rows ->
  "Timestamp" ∉ fieldnames ->
  read_csv_data (Some content) = empty_series.
Proof.
  intros Hrows Hkey. unfold read_csv_data. rewrite Hrows. unfold DictReader.
  generalize (filter (fun r : list string => r ≠ []) rows). intros kept.
  assert (Hskip : forall s : Series,
             (for_each (map (dict_row fieldnames) kept)
                (fun row => try_except (read_row row) (ret tt)) s).1 = s);
    [| apply Hskip].
  induction kept as [| row kept IH]; intros s; [reflexivity |].
  cbn [map for_each]. rewrite caught_then.
  replace (try_except (read_row (dict_row fieldnames row)) (ret tt) s).1 with s;
    [apply IH |].
  unfold try_except. by rewrite read_row_no_timestamp by by apply dict_row_missing.
Qed.

(** Reading a [TEMP] or [LEVEL] field changes no list. *)
Lemma read_cell (field : option string) (s : Series) :
  exists result : option (option Q),
    (if decide (field = Some "N/A") then ret None
     else (let! x := lift (field ≫= py_float) in ret (Some x))%py) s
    = (s, result).
Proof.
  destruct (decide (field = Some "N/A")); [by eexists |].
  unfold bind. destruct (field ≫= py_float); by eexists.
Qed.

(** What one pass through the [try] block can leave behind: nothing, or
    an entry in [times], or in [times] and [temps], and so on in the
    order of the four [append]s. *)
Lemma read_row_cases (row : gmap string (option string)) (s : Series) :
  let s' := (read_row row s).1 in
  s' = s
  \/ (exists d, s' = append_times d s)
  \/ (exists d t, s' = append_temps t (append_times d s))
  \/ (exists d t g, s' = append_gas_values g (append_temps t (append_times d s)))
  \/ (exists d t g l,
        s' = append_levels l (append_gas_values g (append_temps t (append_times d s)))).
Proof.
  intros s'. assert (Hs' : (read_row row s).1 = s') by reflexivity.
  clearbody s'. revert Hs'.
  unfold read_row, getitem, parse.
  unfold bind at 1.
  destruct (row !! "Timestamp") as [ts |]; cbn [lift ret raise];
    [| intros <-; by left].
  unfold bind at 1.
  destruct (ts ≫= strptime) as [d |]; cbn [lift ret raise];
    [| intros <-; by left].
  unfold bind at 1. cbn [modify].
  unfold bind at 1.
  destruct (row !! "TEMP") as [temp |]; cbn [lift ret raise];
    [| intros <-; right; left; by exists d].
  unfold bind at 1.
  destruct (read_cell temp (append_times d s)) as [[t |] ->];
    [| intros <-; right; left; by exists d].
  unfold bind at 1. cbn [modify].
  unfold bind at 1.
  destruct (row !! "PPM") as [ppm |]; cbn [lift ret raise];
    [| intros <-; right; right; left; by exists d, t].
  unfold bind at 1.
  destruct (ppm ≫= py_int) as [g |]; cbn [lift ret raise];
    [| intros <-; right; right; left; by exists d, t].
  unfold bind at 1. cbn [modify].
  unfold bind at 1.
  destruct (row !! "LEVEL") as [lev |]; cbn [lift ret raise];
    [| intros <-; right; right; right; left; by exists d, t, g].
  unfold bind at 1.
  destruct (read_cell lev (append_gas_values g (append_temps t (append_times d s))))
    as [[l |] ->];
    [| intros <-; right; right; right; left; by exists d, t, g].
  intros <-. right; right; right; right. by exists d, t, g, l.
Qed.

Lemma read_row_staggered (row : gmap string (option string)) (s : Series) :
  staggered s -> staggered (read_row row s).1.
Proof.
  intros (H1 & H2 & H3).
  destruct (read_row_cases row s)
    as [-> | [(d & ->) | [(d & t & ->) | [(d & t & g & ->) | (d & t & g & l & ->)]]]];
    unfold staggered; cbn [times temps gas_values levels append_times append_temps
                            append_gas_values append_levels];
    rewrite ?length_app; simpl; lia.
Qed.

(** Whatever the log holds, [read_csv_data] returns lists of which none
    is longer than the one before it: [levels] is no longer than
    [gas_values], which is no longer than [temps], which is no longer
    than [times]. *)
Theorem read_csv_data_staggered (f : option string) :
  staggered (read_csv_data f).
Proof.
  destruct f as [content |]; [| unfold staggered; simpl; lia].
  unfold read_csv_data.
  generalize (DictReader (csv_reader content)). intros rows.
  assert (Hempty : staggered empty_series) by (unfold staggered; simpl; lia).
  revert Hempty. generalize empty_series as s.
  induction rows as [| row rows IH]; intros s Hs; [exact Hs |].
  cbn [for_each]. rewrite caught_then. apply IH.
  unfold try_except. pose proof (read_row_staggered row s Hs) as Hrow.
  destruct (read_row row s) as [s' [[] |]]; exact Hrow.
Qed.

(** The dictionary of a row of any length under the header of the log:
    the first four names map to the first four fields, [None] standing
    for a field the row does not have. *)
Lemma dict_row_header_any (row : list string) :
  dict_row header row !! "Timestamp" = Some (row !! 0%nat)
  /\ dict_row header row !! "TEMP" = Some (row !! 1%nat)
  /\ dict_row header row !! "PPM" = Some (row !! 2%nat)
  /\ dict_row header row !! "LEVEL" = Some (row !! 3%nat).
Proof.
  unfold dict_row, header.
  destruct row as [| a [| b [| c [| d [| e rest]]]]];
    cbn [foldl zip_with map app replicate length Nat.sub fst snd];
    (split; [| split; [| split]]);
    rewrite ?lookup_insert_ne by done; apply lookup_insert_eq.
Qed.

(** [read_row] looks at four keys only. *)
Lemma read_row_ext (row row' : gmap string (option string)) (s : Series) :
  row !! "Timestamp" = row' !! "Timestamp" ->
  row !! "TEMP" = row' !! "TEMP" ->
  row !! "PPM" = row' !! "PPM" ->
  row !! "LEVEL" = row' !! "LEVEL" ->
  read_row row s = read_row row' s.
Proof.
  intros H1 H2 H3 H4. unfold read_row, getitem. by rewrite H1, H2, H3, H4.
Qed.

(** The [Anomaly] column is not read: two logs under the header whose
    rows have the same first four fields read back the same, whatever
    comes after these fields. *)
Theorem read_csv_data_ignores_anomaly
    (content1 content2 : string) (rows1 rows2 : list (list string)) :
  csv_reader content1 = header :: rows1 ->
  csv_reader content2 = header :: rows2 ->
  Forall2 (fun r1 r2 => take 4 r1 = take 4 r2) rows1 rows2 ->
  read_csv_data (Some content1) = read_csv_data (Some content2).
Proof.
  intros H1 H2 Hrows. unfold read_csv_data. rewrite H1, H2. unfold DictReader.
  clear H1 H2. f_equal. generalize empty_series as s.
  induction Hrows as [| r1 r2 rows1 rows2 Hr Hrows IH]; intros s; [reflexivity |].
  destruct r1 as [| a1 r1].
  - destruct r2 as [| a2 r2]; [| discriminate].
    rewrite !filter_cons_False by (intros H; by apply H). apply IH.
  - destruct r2 as [| a2 r2]; [discriminate |].
    rewrite !filter_cons_True by done. cbn [map for_each].
    rewrite !caught_then.
    replace (try_except (read_row (dict_row header (a1 :: r1))) (ret tt) s)
      with (try_except (read_row (dict_row header (a2 :: r2))) (ret tt) s);
      [apply IH |].
    unfold try_except.
    destruct (dict_row_header_any (a1 :: r1)) as (Ha & Hb & Hc & Hd).
    destruct (dict_row_header_any (a2 :: r2)) as (Ha' & Hb' & Hc' & Hd').
    assert (Hfield : forall i, (i < 4)%nat -> (a1 :: r1) !! i = (a2 :: r2) !! i).
    { intros i Hi. rewrite <- (lookup_take_lt (a1 :: r1) 4 i Hi).
      rewrite <- (lookup_take_lt (a2 :: r2) 4 i Hi). by rewrite Hr. }
    rewrite (read_row_ext (dict_row header (a1 :: r1)) (dict_row header (a2 :: r2)) s);
      [reflexivity | | | |].
    + rewrite Ha, Ha'. f_equal. apply Hfield. lia.
    + rewrite Hb, Hb'. f_equal. apply Hfield. lia.
    + rewrite Hc, Hc'. f_equal. apply Hfield. lia.
    + rewrite Hd, Hd'. f_equal. apply Hfield. lia.
Qed.

(** A row cut short after its temperature, as a write that did not
    finish leaves it, puts an entry in [times] and in [temps] and none in
    the other two lists: the missing [PPM] field is [None], and [int]
    raises on it. *)
Theorem read_csv_data_truncated_row
    (content ts temp : string) (d : datetime) (x : Q) :
  csv_reader content = [header; [ts; temp]] ->
  strptime ts = Some d ->
  temp <> "N/A" ->
  py_float temp = Some x ->
  read_csv_data (Some content)
  = {| times := [d]; temps := [Some x]; gas_values := []; levels := [] |}.
Proof.
  intros Hrows Hd Hna Hx. unfold read_csv_data. rewrite Hrows.
  unfold DictReader. rewrite filter_cons_True by done.
  cbn [filter list_filter map for_each]. rewrite caught_then. cbn [ret fst].
  unfold try_except.
  destruct (dict_row_header_any [ts; temp]) as (Hts & Htemp & Hppm & _).
  unfold read_row, getitem, parse.
  unfold bind at 1. rewrite Hts. cbn [lift ret lookup list_lookup].
  unfold bind at 1. cbn [mbind option_bind]. rewrite Hd. cbn [lift ret].
  unfold bind at 1. cbn [modify].
  unfold bind at 1. rewrite Htemp. cbn [lift ret lookup list_lookup].
  unfold bind at 1. rewrite decide_False by congruence.
  unfold bind at 1. cbn [mbind option_bind]. rewrite Hx. cbn [lift ret].
  unfold bind at 1. cbn [modify].
  unfold bind at 1. rewrite Hppm. cbn [lift ret lookup list_lookup].
  unfold bind at 1. cbn [mbind option_bind lift raise].
  reflexivity.
Qed.

Lemma stamps_snoc_inv (rounds : list Round) (r : Round) (ds : list datetime) :
  stamps (rounds ++ [r]) = Some ds ->
  exists ds' d, ds = ds' ++ [d] /\ stamps rounds = Some ds'
                /\ strptime (timestamp r) = Some d.
Proof.
  unfold stamps. intros H. apply mapM_Some in H.
  apply Forall2_app_inv_l in H as (ds' & tl & Hds' & Htl & ->).
  inversion Htl as [| ? d ? ? Hd Hnil]; subst. inversion Hnil; subst.
  exists ds', d. split; [done |]. split; [by apply mapM_Some | done].
Qed.

(** The rows of readable rounds read back as the samples of the rounds. *)
Lemma read_logged_rows (rounds : list Round) :
  forall ds : list datetime,
    stamps rounds = Some ds ->
    Forall readable rounds ->
    (for_each (map (fun r => dict_row header (log_row r)) rounds)
       (fun row => try_except (read_row row) (ret tt)) empty_series).1
    = published rounds ds.
Proof.
  induction rounds as [| r rounds IH] using rev_ind; intros ds Hds Hread.
  - by injection Hds as <-.
  - apply stamps_snoc_inv in Hds as (ds' & d & -> & Hds' & Hd).
    apply Forall_app in Hread as [Hread Hr].
    inversion_clear Hr as [| ? ? (Ht & Hl & Hg) _].
    rewrite map_app, for_each_caught_app, (IH ds' Hds' Hread).
    cbn [map for_each]. rewrite caught_then. cbn [ret fst]. unfold try_except.
    rewrite (read_row_logged r d) by done. cbn [fst].
    by rewrite published_snoc.
Qed.

(** What was persisted and what was published agree: when the loop
    starts with empty lists on a log that holds the header, the log reads
    back as one sample per round, in order, and the lists of the
    application are the last 100 entries of what the log reads back. *)
Theorem log_agrees_with_history
    (rounds : list Round) (ds : list datetime) (a : App) (final : string) :
  series a = empty_series ->
  stamps rounds = Some ds ->
  Forall readable rounds ->
  log (sensor_loop rounds a).1 = Some final ->
  csv_reader final = header :: map log_row rounds ->
  read_csv_data (Some final) = published rounds ds
  /\ series (sensor_loop rounds a).1 = recent 100 (read_csv_data (Some final)).
Proof.
  intros Ha Hds Hread Hlog Hrows.
  assert (Hback : read_csv_data (Some final) = published rounds ds).
  { unfold read_csv_data. rewrite Hrows. unfold DictReader.
    replace (filter (fun r : list string => r ≠ []) (map log_row rounds))
      with (map log_row rounds).
    - rewrite map_map. by apply read_logged_rows.
    - clear. induction rounds as [| r rounds IH]; [reflexivity |].
      cbn [map]. rewrite filter_cons_True by done. by f_equal. }
  split; [exact Hback |]. rewrite Hback.
  destruct (sensor_loop_run rounds a [] [] ds) as (a' & Hrun & Hseries);
    [done | by rewrite Ha | done |].
  rewrite Hrun. exact Hseries.
Qed.

End ReaderProperties.

(** ** The further properties on concrete inputs *)

Section MoreRuns.
#[local] Existing Instance RefLib.ref_lib.

Lemma faulty_round_shown_and_logged :
  fault_detection (sensor_iter faulty_round (init_app (Some fresh_log))).1
  = "Critical fault: Sensor data missing!"
  /\ anomaly_detection (or_NA (temperature faulty_round)) (or_NA (level faulty_round))
     = "Yes".
Proof.
  split; [reflexivity |].
  apply (fault_message_implies_logged_anomaly (L := RefLib.ref_lib) faulty_round
           (init_app (Some fresh_log))
           {| RefLib.year := 2025; RefLib.month := 1; RefLib.day := 1;
              RefLib.hour := 12; RefLib.minute := 0; RefLib.second := 1 |}).
  - reflexivity.
  - by vm_compute.
  - by vm_compute.
  - by vm_compute.
Defined.

Lemma cold_round_logged_not_shown :
  anomaly_detection (or_NA (temperature cold_round)) (or_NA (level cold_round)) = "Yes"
  /\ fault_detection (sensor_iter cold_round (init_app (Some fresh_log))).1 = "".
Proof.
  apply (cold_reading_logged_not_shown (L := RefLib.ref_lib) cold_round (init_app (Some fresh_log))
           {| RefLib.year := 2025; RefLib.month := 1; RefLib.day := 1;
              RefLib.hour := 12; RefLib.minute := 0; RefLib.second := 3 |}
           (-5 # 1) (6017 # 50)).
  - reflexivity.
  - reflexivity.
  - reflexivity.
  - reflexivity.
  - by vm_compute.
  - split; by vm_compute.
  - by vm_compute.
Defined.

Lemma gassy_round_shown_not_logged :
  anomaly_detection (or_NA (temperature gassy_round)) (or_NA (level gassy_round)) = "No"
  /\ fault_detection (sensor_iter gassy_round tuned_app).1 = "Critical fault detected!".
Proof.
  apply (gas_shown_not_logged (L := RefLib.ref_lib) gassy_round tuned_app
           {| RefLib.year := 2025; RefLib.month := 1; RefLib.day := 1;
              RefLib.hour := 12; RefLib.minute := 0; RefLib.second := 2 |}
           (47 # 2) (6017 # 50)).
  - reflexivity.
  - reflexivity.
  - reflexivity.
  - split; by vm_compute.
  - split; by vm_compute.
  - reflexivity.
  - reflexivity.
Defined.

Lemma metre_echo_shape :
  exists lows h highs p rest,
    metre_echo = lows ++ h :: highs ++ p :: rest
    /\ Forall (fun q => low q /\ (clock q <= 0.1 + 0.04)%Q) lows
    /\ high h
    /\ Forall (fun q => high q /\ (clock q <= clock h + 0.04)%Q) highs
    /\ low p
    /\ 9947 # 100
       = py_round2 ((last_clock (clock h) highs - last_clock 0.1 lows) * 17150).
Proof.
  apply (read_ultrasonic_distance_inv 0.1 metre_echo (9947 # 100)). reflexivity.
Defined.

Lemma metre_echo_nonneg :
  well_timed 0.1 metre_echo /\ (0 <= 9947 # 100)%Q.
Proof.
  assert (Hwt : well_timed 0.1 metre_echo) by (repeat split; by vm_compute).
  split; [exact Hwt |].
  exact (read_ultrasonic_nonneg 0.1 metre_echo (9947 # 100) Hwt eq_refl).
Defined.

Lemma metre_echo_then_more :
  read_ultrasonic 0.1 (metre_echo ++ silent_echo) = Return (Some (9947 # 100)).
Proof.
  apply (read_ultrasonic_more 0.1 metre_echo silent_echo). reflexivity.
Defined.

Lemma metre_echo_half_way :
  read_ultrasonic 0.1 (take 4 metre_echo) = Polling
  /\ (Forall (fun q => low q /\ (clock q <= 0.1 + 0.04)%Q) (take 4 metre_echo)
      \/ exists lows h highs,
          take 4 metre_echo = lows ++ h :: highs
          /\ Forall (fun q => low q /\ (clock q <= 0.1 + 0.04)%Q) lows
          /\ high h
          /\ Forall (fun q => high q /\ (clock q <= clock h + 0.04)%Q) highs).
Proof.
  split; [reflexivity |].
  apply (read_ultrasonic_Polling 0.1 (take 4 metre_echo)). reflexivity.
Defined.

Lemma absent_log_initialised_once :
  csv_writerow header <> ""
  /\ ensure_initialized false (ensure_initialized false None)
     = ensure_initialized false None.
Proof.
  assert (Hne : csv_writerow header <> "") by (vm_compute; discriminate).
  split; [exact Hne |]. exact (ensure_initialized_twice (L := RefLib.ref_lib) false None Hne).
Defined.

Lemma three_rounds_appended :
  log (sensor_loop three_rounds tuned_app).1
  = Some (fresh_log +:+ rows_text three_rounds)
  /\ temp_threshold (sensor_loop three_rounds tuned_app).1 = 20%Q
  /\ gas_threshold (sensor_loop three_rounds tuned_app).1 = 0%Z.
Proof.
  apply (sensor_loop_appends (L := RefLib.ref_lib) three_rounds
           (omap (fun r => strptime (timestamp r)) three_rounds) tuned_app fresh_log).
  - by vm_compute.
  - reflexivity.
Defined.

Lemma three_rounds_logged_alike :
  log (sensor_loop three_rounds tuned_app).1
  = headless_loop three_rounds (Some fresh_log).
Proof.
  apply (sensor_loop_logs_as_headless (L := RefLib.ref_lib) three_rounds
           (omap (fun r => strptime (timestamp r)) three_rounds) tuned_app).
  by vm_compute.
Defined.

Lemma foreign_log_reads_empty :
  read_csv_data (Some foreign_log) = empty_series.
Proof.
  apply (read_csv_data_without_timestamp_column (L := RefLib.ref_lib) foreign_log ["time"; "value"]
           [["2025-01-01 12:00:00"; "1"]]).
  - by vm_compute.
  - intros Hin. apply elem_of_cons in Hin as [Hin | Hin]; [discriminate Hin |].
    apply elem_of_cons in Hin as [Hin | Hin]; [discriminate Hin |].
    by apply elem_of_nil in Hin.
Defined.

Lemma flag_not_read :
  read_csv_data (Some log_flagged_no) = read_csv_data (Some log_flagged_yes).
Proof.
  apply (read_csv_data_ignores_anomaly (L := RefLib.ref_lib) log_flagged_no log_flagged_yes
           [["2025-01-01 12:00:00"; "23.5"; "0"; "120.34"; "No"]]
           [["2025-01-01 12:00:00"; "23.5"; "0"; "120.34"; "Yes"]]).
  - by vm_compute.
  - by vm_compute.
  - by repeat constructor.
Defined.

Lemma truncated_log_misaligned :
  read_csv_data (Some truncated_log)
  = {| times := [noon]; temps := [Some (47 # 2)]; gas_values := []; levels := [] |}.
Proof.
  apply (read_csv_data_truncated_row (L := RefLib.ref_lib) truncated_log "2025-01-01 12:00:00" "23.5"
           noon (47 # 2)).
  - by vm_compute.
  - by vm_compute.
  - discriminate.
  - by vm_compute.
Defined.

Lemma three_rounds_readable : Forall readable three_rounds.
Proof.
  assert (Hpresent : reads_back (Some (47 # 2)) /\ reads_back (Some (6017 # 50))).
  { split; intros x Hx; injection Hx as <-;
      (split; [by vm_compute | vm_compute; discriminate]). }
  destruct Hpresent as [Htemp Hlevel].
  assert (Habsent : reads_back None) by (intros x Hx; discriminate Hx).
  unfold three_rounds.
  constructor; [| constructor; [| constructor; [| constructor]]].
  - split; [exact Htemp | split; [exact Hlevel | by vm_compute]].
  - split; [exact Habsent | split; [exact Habsent | by vm_compute]].
  - split; [exact Htemp | split; [exact Hlevel | by vm_compute]].
Qed.

Lemma three_rounds_persisted_and_published :
  read_csv_data (Some (fresh_log +:+ rows_text three_rounds))
  = published three_rounds [noon; {| RefLib.year := 2025; RefLib.month := 1;
                                     RefLib.day := 1; RefLib.hour := 12;
                                     RefLib.minute := 0; RefLib.second := 1 |};
                            {| RefLib.year := 2025; RefLib.month := 1;
                               RefLib.day := 1; RefLib.hour := 12;
                               RefLib.minute := 0; RefLib.second := 2 |}]
  /\ series (sensor_loop three_rounds tuned_app).1
     = recent 100 (read_csv_data (Some (fresh_log +:+ rows_text three_rounds))).
Proof.
  assert (H1 : series tuned_app = empty_series) by reflexivity.
  assert (H2 : stamps three_rounds
               = Some [noon; {| RefLib.year := 2025; RefLib.month := 1;
                                RefLib.day := 1; RefLib.hour := 12;
                                RefLib.minute := 0; RefLib.second := 1 |};
                       {| RefLib.year := 2025; RefLib.month := 1;
                          RefLib.day := 1; RefLib.hour := 12;
                          RefLib.minute := 0; RefLib.second := 2 |}])
    by by vm_compute.
  assert (H4 : log (sensor_loop three_rounds tuned_app).1
               = Some (fresh_log +:+ rows_text three_rounds)) by by vm_compute.
  assert (H5 : csv_reader (fresh_log +:+ rows_text three_rounds)
               = header :: map log_row three_rounds) by by vm_compute.
  exact (log_agrees_with_history (L := RefLib.ref_lib) three_rounds _ tuned_app _
           H1 H2 three_rounds_readable H4 H5).
Defined.

End MoreRuns.

(** ** The distance measured and the echo pulse *)










(** On [rounded_echo] the product is not a number of hundredths: the
    function returns 99.98 for 99.9845. *)
Example rounded_echo_result :
  read_ultrasonic 0.1 rounded_echo = Return (Some (9998 # 100)).
Proof. reflexivity. Qed.


(** A log with rows whose reading raises: the monitor replaces it by the
    header line, the console logger keeps it. *)
Lemma unreadable_log_rewritten :
  log_flagged_no <> ""
  /\ ensure_initialized (L := RefLib.ref_lib) true (Some log_flagged_no)
     = Some fresh_log
  /\ ensure_initialized_headless (L := RefLib.ref_lib) (Some log_flagged_no)
     = Some log_flagged_no
  /\ fresh_log <> log_flagged_no.
Proof.
  assert (Hne : log_flagged_no <> "") by (vm_compute; discriminate).
  split; [exact Hne |].
  destruct (ensure_initialized_rewrites_unreadable (L := RefLib.ref_lib)
              log_flagged_no Hne) as [H1 H2].
  split; [exact H1 |]. split; [exact H2 |]. vm_compute. discriminate.
Defined.
